(** * NAIP_CNN: acquisitions and the training command

    A shallow embedding of [naip_cnn/acquisitions.py] and
    [naip_cnn/cli/train.py], with the properties of the specification
    stated and proved over it.

    The two modules are thin orchestration over three external
    collaborators: the remote imagery backend (Earth Engine), the
    deep-learning framework (Keras / tf.data) and the tracking service
    (wandb).  Each collaborator is represented by the small executable
    model that the orchestration code can observe; the orchestration
    code itself is transcribed call by call. *)

From Stdlib Require Import ZArith QArith Qreduction Lia Lqa.
From Stdlib Require Import String Ascii DecimalString DecimalNat.
From stdpp Require Import base option list gmap strings fin_maps.

Close Scope Q_scope.
Open Scope string_scope.
Open Scope Z_scope.

(** ** Part I: [naip_cnn/acquisitions.py] *)

Module Acquisitions.

(** *** The imagery backend, as seen from [Acquisition] *)

(** A ground position, in units of the coordinate reference. *)
Definition Loc : Type := Z * Z.

(** One band of an image: a value at a position, or no data there
    (a masked pixel). *)
Definition Raster : Type := Loc -> option Z.

(** [ee.Projection]: a coordinate reference with a pixel size. *)
Record Projection := mkProjection { crs : string; scale : Z }.

(** [ee.Projection(crs)]: the reference's own unit grid. *)
Definition ee_Projection (c : string) : Projection :=
  {| crs := c; scale := 1 |}.

(** [proj.atScale(s)]. *)
Definition atScale (p : Projection) (s : Z) : Projection :=
  {| crs := crs p; scale := s |}.

(** The grid cell of a projection that contains a position. *)
Definition cell (p : Projection) (l : Loc) : Z * Z :=
  (fst l / scale p, snd l / scale p).

(** An axis-aligned footprint, [xmin <= x < xmax] and [ymin <= y < ymax].
    Footprints are kept rectangular, so that [bounds] of a footprint is
    the footprint. *)
Record Box := mkBox { xmin : Z; ymin : Z; xmax : Z; ymax : Z }.

Definition bounds (g : Box) : Box := g.

Definition box_intersects (a b : Box) : bool :=
  (xmin a <? xmax b) && (xmin b <? xmax a) &&
  (ymin a <? ymax b) && (ymin b <? ymax a).

(** A computed [ee.Image]: pixels, and the projection it was forced
    into by [reproject] ([None] before any [reproject]). *)
Record Image := mkImage { pixels : Raster; projection : option Projection }.

(** A stored raster of the archive: a NAIP capture or a LiDAR survey
    raster.  Its bands are treated alike by every call of this module,
    so one raster stands for them. *)
Record Scene := mkScene {
  scene_time : string;
  scene_footprint : Box;
  scene_pixels : Raster
}.

(** One time slice of the land-cover-change product: its properties and
    its [Change] band (the bands that [select("Change")] drops are not
    represented). *)
Record Slice := mkSlice {
  study_area : string;
  time_start : string;
  Change : Raster
}.

Definition image_of_scene (s : Scene) : Image :=
  {| pixels := scene_pixels s; projection := None |}.

(** [img.eq(c)]: 1 where the pixel equals [c], 0 where it differs,
    no data where the image has none. *)
Definition img_eq (c : Z) (img : Image) : Image :=
  {| pixels := fun l => (fun v => if v =? c then 1 else 0) <$> pixels img l;
     projection := projection img |}.

(** The largest of the values at hand, if there is any. *)
Definition max_value (vs : list Z) : option Z :=
  foldr (fun v acc =>
           match acc with
           | Some m => Some (Z.max v m)
           | None => Some v
           end) None vs.

(** [collection.max()], the backend's collection-wide reduction.  On a
    stack with layers it is the backend's reducer: the layers without
    data at a pixel are skipped there, and the result has no data
    where no layer has any.  On the empty stack it is modelled from the
    spec, which defines the case (section 4.2): the identity of OR,
    false (0), everywhere. *)
Definition reduce_max (stack : list Image) : Image :=
  {| pixels := fun l =>
       match stack with
       | [] => Some 0
       | _ :: _ => max_value (omap (fun img => pixels img l) stack)
       end;
     projection := None |}.

(** [collection.mosaic()]: the captures composited into one image; where
    captures overlap the later one in collection order is on top. *)
Fixpoint mosaic_pixels (captures : list Scene) (l : Loc) : option Z :=
  match captures with
  | [] => None
  | s :: rest =>
      match mosaic_pixels rest l with
      | Some v => Some v
      | None => scene_pixels s l
      end
  end.

Definition mosaic (captures : list Scene) : Image :=
  {| pixels := mosaic_pixels captures; projection := None |}.

(** [img.updateMask(m)]: set to no data wherever the mask is zero or has
    no data itself. *)
Definition updateMask (img m : Image) : Image :=
  {| pixels := fun l =>
       match pixels m l with
       | Some v => if v =? 0 then None else pixels img l
       | None => None
       end;
     projection := projection img |}.

(** [img.reproject(p)]: force the image onto the grid of [p].  Pixel
    values are addressed by ground position throughout, so only the
    grid changes. *)
Definition reproject (img : Image) (p : Projection) : Image :=
  {| pixels := pixels img; projection := Some p |}.

(** [collection.filterBounds(g)]: the captures whose footprint
    intersects [g]. *)
Definition filterBounds (g : Box) (captures : list Scene) : list Scene :=
  filter (fun s => box_intersects (scene_footprint s) g = true) captures.

(** *** The class [Acquisition] *)

Record Acquisition := mkAcquisition {
  name : string;
  start_date : string;
  end_date : string
}.

(** [Acquisition.__init__]: the three arguments are stored; nothing is
    checked. *)
Definition __init__ (name start_date end_date : string) : Acquisition :=
  {| name := name; start_date := start_date; end_date := end_date |}.

(** The date-ordering invariant of the data model.  Dates are ISO
    [YYYY-MM-DD] strings, ordered as strings. *)
Definition date_ordered (a : Acquisition) : bool :=
  String.leb (start_date a) (end_date a).

(** The archive path of a survey raster. *)
Definition asset_path (a : Acquisition) : string :=
  "projects/ee-maptheforests/assets/malheur_lidar/" ++ name a.

Section Backend.

(** [naip_cnn.config.CRS]. *)
Variable CRS : string.

(** The backend's date filter: [date_in_range start end t] tells
    whether an image stamped [t] is kept by [filterDate(start, end)]. *)
Variable date_in_range : string -> string -> string -> bool.

(** The archive: the change product, the NAIP captures, and the
    survey rasters by path (an unknown path has no raster). *)
Variable LCMS : list Slice.
Variable NAIP : list Scene.
Variable assets : string -> option Scene.

Definition proj (a : Acquisition) : Projection := ee_Projection CRS.

Definition geometry (a : Acquisition) : option Box :=
  scene_footprint <$> assets (asset_path a).

(** The slices of the change product that the two filters of [mask]
    keep: study area [CONUS], stamped within the acquisition's dates. *)
Definition window (a : Acquisition) : list Slice :=
  filter (fun s => date_in_range (start_date a) (end_date a) (time_start s) = true)
    (filter (fun s => study_area s = "CONUS") LCMS).

(** [Acquisition.mask]. *)
Definition mask (a : Acquisition) : Image :=
  reproject
    (img_eq 0
       (reduce_max
          (map (fun img => img_eq 3 img)
             (map (fun s => {| pixels := Change s; projection := None |})
                (window a)))))
    (atScale (proj a) 30).

(** [Acquisition.load_naip]. *)
Definition load_naip (a : Acquisition) : option Image :=
  g ← geometry a;
  Some (reproject
          (updateMask
             (mosaic
                (filterBounds (bounds g)
                   (filter (fun s => date_in_range (start_date a) (end_date a)
                                       (scene_time s) = true) NAIP)))
             (mask a))
          (atScale (proj a) 1)).

(** [Acquisition.load_lidar]. *)
Definition load_lidar (a : Acquisition) : option Image :=
  s ← assets (asset_path a);
  Some (reproject (updateMask (image_of_scene s) (mask a))
          (atScale (proj a) 30)).

End Backend.

(** *** The registry *)

Definition MAL2007 := __init__ "MAL2007" "2007-01-01" "2009-12-31".
Definition MAL2008_CampCreek := __init__ "MAL2008_CampCreek" "2008-01-01" "2009-12-31".
Definition MAL2008_2009_MalheurRiver :=
  __init__ "MAL2008_2009_MalheurRiver" "2008-01-01" "2009-12-31".
Definition MAL2010 := __init__ "MAL2010" "2010-01-01" "2011-12-31".
Definition MAL2014 := __init__ "MAL2014" "2014-01-01" "2014-12-31".
Definition MAL2016_CanyonCreek := __init__ "MAL2016_CanyonCreek" "2016-01-01" "2016-12-31".
Definition MAL2017_Crow := __init__ "MAL2017_Crow" "2016-01-01" "2017-12-31".
Definition MAL2017_JohnDay := __init__ "MAL2017_JohnDay" "2016-01-01" "2017-12-31".
Definition MAL2018_Aldrich_UpperBear :=
  __init__ "MAL2018_Aldrich_UpperBear" "2018-01-01" "2020-12-31".
Definition MAL2018_Rattlesnake := __init__ "MAL2018_Rattlesnake" "2018-01-01" "2020-12-31".
Definition MAL2019 := __init__ "MAL2019" "2019-01-01" "2020-12-31".
Definition MAL2020_UpperJohnDay :=
  __init__ "MAL2020_UpperJohnDay" "2020-01-01" "2020-12-31".

Definition registry : list Acquisition :=
  [ MAL2007; MAL2008_CampCreek; MAL2008_2009_MalheurRiver; MAL2010; MAL2014;
    MAL2016_CanyonCreek; MAL2017_Crow; MAL2017_JohnDay;
    MAL2018_Aldrich_UpperBear; MAL2018_Rattlesnake; MAL2019;
    MAL2020_UpperJohnDay ].

End Acquisitions.

(** ** Part II: [naip_cnn/cli/train.py] *)

Module Train.

(** *** Exceptions and results *)

Inductive Exn :=
| KeyboardInterrupt
| AssertionError
| ValueError
| KeyError
| FileNotFoundError
| RuntimeError.

Inductive Result (A : Type) : Type :=
| Ok (a : A)
| Raise (e : Exn).
Arguments Ok {A} a.
Arguments Raise {A} e.

#[global] Instance Result_ret : MRet Result := fun A a => Ok a.
#[global] Instance Result_bind : MBind Result := fun A B f m =>
  match m with
  | Ok a => f a
  | Raise e => Raise e
  end.

(** *** Floating-point values

    The losses, the labels, the predictions and the metrics are
    floating-point numbers: finite values, the two infinities and NaN.
    Comparisons of floating-point numbers are exact.  Their arithmetic
    rounds and overflows; it is kept apart (see [Arith]). *)

Inductive Float :=
| Finite (q : Q)
| PosInf
| NegInf
| NaN.

Definition isfinite (x : Float) : bool :=
  match x with
  | Finite _ => true
  | _ => false
  end.

Definition isnan (x : Float) : bool :=
  match x with
  | NaN => true
  | _ => false
  end.

Definition Qltb (x y : Q) : bool := negb (Qle_bool y x).

(** [np.less(x, y)]: false whenever one side is NaN. *)
Definition less (x y : Float) : bool :=
  match x, y with
  | NaN, _ | _, NaN => false
  | _, NegInf => false
  | NegInf, _ => true
  | PosInf, _ => false
  | Finite _, PosInf => true
  | Finite a, Finite b => Qltb a b
  end.

(** [x != 0]. *)
Definition nonzero (x : Float) : bool :=
  match x with
  | Finite q => negb (Qeq_bool q 0)
  | _ => true
  end.

(** The arithmetic that numpy performs on the arrays of [r2_score]:
    subtraction, division, squaring, and the sum and the average of an
    array.  How it rounds and overflows depends on the type of the
    arrays; the model takes it as a parameter. *)
Record Arith := mkArith {
  fsub : Float -> Float -> Float;
  fdiv : Float -> Float -> Float;
  fsquare : Float -> Float;
  fsum : list Float -> Float;
  faverage : list Float -> Float
}.

(** *** Values of a metrics dictionary *)

Inductive Value :=
| VInt (n : nat)
| VFloat (x : Float)
| VBool (b : bool).

(** *** [sklearn.metrics.r2_score] on two flat arrays

    The library checks that the two arrays have one length, that all
    their values are finite and that there is at least one (a
    [ValueError] otherwise), and reports NaN for fewer than two
    samples.  Otherwise the two sums of squares are computed, and the
    score is [1 - numerator / denominator] where neither is zero, 0
    where only the denominator is zero, and 1 where the numerator is
    zero. *)

Definition r2_score (ar : Arith) (y_true y_pred : list Float) : Result Value :=
  if negb (length y_true =? length y_pred)%nat then Raise ValueError
  else if negb (forallb isfinite y_true) || (length y_true =? 0)%nat
  then Raise ValueError
  else if negb (forallb isfinite y_pred) || (length y_pred =? 0)%nat
  then Raise ValueError
  else if (length y_pred <? 2)%nat then Ok (VFloat NaN)
  else
    let numerator :=
      fsum ar (zip_with (fun t p => fsquare ar (fsub ar t p)) y_true y_pred) in
    let denominator :=
      fsum ar (map (fun t => fsquare ar (fsub ar t (faverage ar y_true)))
                 y_true) in
    let nonzero_denominator := nonzero denominator in
    let nonzero_numerator := nonzero numerator in
    if nonzero_denominator && nonzero_numerator
    then Ok (VFloat (fsub ar (Finite 1) (fdiv ar numerator denominator)))
    else if nonzero_numerator && negb nonzero_denominator
    then Ok (VFloat (Finite 0))
    else Ok (VFloat (Finite 1)).

(** *** [tf.data] pipelines

    A dataset is a recipe for a pass over its elements.  A pass runs
    against the store that holds the caches of the process and the count
    of passes made so far; what a source or a shuffle yields may differ
    from pass to pass. *)

Section Data.

(** One input patch; its content is not inspected here. *)
Variable Input : Type.

(** One label raster, flattened. *)
Definition Label : Type := list Float.

Definition Sample : Type := Input * Label.

(** A batch as [tf.data] hands it out: the stacked inputs and the
    stacked labels ([data[0]] and [data[1]]). *)
Definition Batch : Type := list Input * list Label.

Record Store := mkStore {
  caches : gmap nat (list Sample);
  passes : nat
}.

Definition Dataset (A : Type) : Type := Store -> list A * Store.

(** The dataset a wrapper's [load_train] / [load_val] returns: the
    order read on a pass is the reader's. *)
Definition from_reader (read : nat -> list Sample) : Dataset Sample :=
  fun st => (read (passes st),
             {| caches := caches st; passes := S (passes st) |}).

(** [ds.cache()]: the first pass stores what it read; later passes
    replay the stored elements.  [slot] identifies the cache. *)
Definition cache (slot : nat) (ds : Dataset Sample) : Dataset Sample :=
  fun st =>
    match caches st !! slot with
    | Some l => (l, st)
    | None =>
        let '(l, st') := ds st in
        (l, {| caches := <[slot := l]> (caches st'); passes := passes st' |})
    end.

(** The order a shuffle buffer of a given size produces on a given
    pass. *)
Variable shuffle_order : nat -> nat -> list Sample -> list Sample.

(** [ds.shuffle(buffer_size)]. *)
Definition shuffle (buffer_size : nat) (ds : Dataset Sample) : Dataset Sample :=
  fun st =>
    let '(l, st') := ds st in
    (shuffle_order (passes st') buffer_size l,
     {| caches := caches st'; passes := S (passes st') |}).

(** Elements are collected until [n] are at hand and then handed out
    together; what is left at the end is handed out only without
    [drop_remainder]. *)
Fixpoint batch_go (n : nat) (drop_remainder : bool)
    (cur : list Sample) (l : list Sample) : list (list Sample) :=
  match l with
  | [] =>
      match cur with
      | [] => []
      | _ :: _ => if drop_remainder then [] else [reverse cur]
      end
  | x :: l' =>
      if (length (x :: cur) =? n)%nat
      then reverse (x :: cur) :: batch_go n drop_remainder [] l'
      else batch_go n drop_remainder (x :: cur) l'
  end.

Definition stack (chunk : list Sample) : Batch :=
  (map fst chunk, map snd chunk).

(** [ds.batch(n, drop_remainder)]. *)
Definition batch (n : nat) (drop_remainder : bool)
    (ds : Dataset Sample) : Dataset Batch :=
  fun st =>
    let '(l, st') := ds st in
    (map stack (batch_go n drop_remainder [] l), st').

(** [ds.prefetch(...)] changes when elements are produced, not which. *)
Definition prefetch {A : Type} (ds : Dataset A) : Dataset A := ds.

(** [config.BATCH_SIZE], and the two readers of the dataset wrapper
    ([wrapper.load_train] with the configured augmenter,
    [wrapper.load_val] without one). *)
Variable BATCH_SIZE : nat.
Variable load_train : nat -> list Sample.
Variable load_val : nat -> list Sample.

(** [load_data]. *)
Definition load_data : Dataset Batch * Dataset Batch :=
  let train :=
    prefetch (batch BATCH_SIZE true
                (shuffle 1000 (cache 0 (from_reader load_train)))) in
  let val :=
    prefetch (batch BATCH_SIZE true (cache 1 (from_reader load_val))) in
  (train, val).

End Data.

Arguments caches {Input} _.
Arguments passes {Input} _.
Arguments mkStore {Input} _ _.
Arguments from_reader {Input} _ _.
Arguments cache {Input} _ _ _.
Arguments shuffle {Input} _ _ _ _.
Arguments batch_go {Input} _ _ _ _.
Arguments stack {Input} _.
Arguments batch {Input} _ _ _ _.
Arguments prefetch {Input A} _.
Arguments load_data {Input} _ _ _ _.

(** *** Checkpoint files *)

Fixpoint pad_zeros (k : nat) (s : string) : string :=
  match k with
  | O => s
  | S k' => String "0" (pad_zeros k' s)
  end.

(** Python's [{epoch:04d}]: decimal, padded with zeros to four digits. *)
Definition format_04d (n : nat) : string :=
  let s := NilEmpty.string_of_uint (Nat.to_uint n) in
  pad_zeros (4 - String.length s) s.

(** The [filepath] given to [ModelCheckpoint], formatted for an epoch. *)
Definition checkpoint_path (run_name : string) (epoch : nat) : string :=
  "./models/.checkpoint_" ++ run_name ++ "_" ++ format_04d epoch ++ ".h5".

Fixpoint strip_prefix (p s : string) : option string :=
  match p, s with
  | EmptyString, _ => Some s
  | String a p', String b s' =>
      if Ascii.eqb a b then strip_prefix p' s' else None
  | String _ _, EmptyString => None
  end.

Fixpoint strip_suffix (suf s : string) : option string :=
  if String.eqb s suf then Some EmptyString
  else match s with
       | EmptyString => None
       | String c s' => String c <$> strip_suffix suf s'
       end.

Definition parse_digits (s : string) : option nat :=
  match s with
  | EmptyString => None
  | String _ _ => Nat.of_uint <$> NilEmpty.uint_of_string s
  end.

(** Modelled from the spec: best-epoch discovery (in
    [naip_cnn/models.py], not among the sources) parses the checkpoint
    naming scheme back into an epoch number (section 6).  A path that
    is not a name of the scheme for the run, with the epoch padded to
    four digits, has no epoch. *)
Definition parse_epoch (run_name path : string) : option nat :=
  rest ← strip_prefix ("./models/.checkpoint_" ++ run_name ++ "_") path;
  digits ← strip_suffix ".h5" rest;
  epoch ← parse_digits digits;
  if String.eqb (format_04d epoch) digits then Some epoch else None.

(** *** The training run *)

(** The comparison of the two callbacks that monitor the validation
    loss: [np.less(current, best)], where the best value is [np.Inf]
    when fitting starts. *)
Definition improves (current best : Float) : bool := less current best.

(** The validation loss recorded for the epoch numbered [e], epochs
    counted from one as in the checkpoint names. *)
Definition recorded (h : list Float) (e : nat) : option Float :=
  match e with
  | O => None
  | S i => h !! i
  end.

Section Run.

Variable Input : Type.

(** The weights of the model; their content is not inspected here. *)
Variable Weights : Type.

(** The arithmetic of the evaluation arrays. *)
Variable ar : Arith.

(** [naip_cnn.cli.config]. *)
Variable BATCH_SIZE : nat.
Variable EPOCHS : nat.
Variable PATIENCE : nat.

(** The dataset wrapper and the shuffle of [tf.data]. *)
Variable load_train : nat -> list (Sample Input).
Variable load_val : nat -> list (Sample Input).
Variable shuffle_order : nat -> nat -> list (Sample Input) -> list (Sample Input).

(** The model class: the weights a new model starts from, what the
    model predicts for one input, and the values [model.evaluate]
    reports on a list of batches. *)
Variable initial_weights : Weights.
Variable predict_step : Weights -> Input -> Label.
Variable evaluate_metrics : Weights -> list (Batch Input) -> list Float.

(** [models.ModelRun], as far as this module uses it: the run's name,
    the weights of its model, the names of the metrics the model was
    compiled with, and the validation losses of the model's fit
    history ([model.history]), one for each completed epoch. *)
Record ModelRun := mkModelRun {
  run_name : string;
  model : Weights;
  metrics_names : list string;
  val_losses : list Float
}.

Variable new_run_name : string.

Record TrainingResult := mkTrainingResult {
  model_run : ModelRun;
  best_epoch : nat;
  stopped_epoch : nat;
  interrupted : bool
}.

(** What the process does to the outside: lines printed and calls to
    the tracking service. *)
Inductive Event :=
| Print (msg : string)
| WandbInit (allow_duplicate : bool)
| WandbLogCode
| WandbLogEpoch (epoch : nat) (val_loss : Float)
| WandbLogModel
| WandbLogImage (key : string)
| WandbSummaryUpdate (summary : gmap string Value)
| WandbAlert (title : string) (r2 mae : Value)
| WandbFinish.

(** The state outside the program text: the checkpoint directory, the
    caches of the datasets, and the events so far (oldest first). *)
Record World := mkWorld {
  disk : gmap string Weights;
  store : Store Input;
  events : list Event
}.

Definition M (A : Type) : Type := World -> Result A * World.

#[global] Instance M_ret : MRet M := fun A a w => (Ok a, w).
#[global] Instance M_bind : MBind M := fun A B f m w =>
  match m w with
  | (Ok a, w') => f a w'
  | (Raise e, w') => (Raise e, w')
  end.

Definition raise {A : Type} (e : Exn) : M A := fun w => (Raise e, w).

Definition emit (ev : Event) : M unit := fun w =>
  (Ok tt, {| disk := disk w; store := store w; events := events w ++ [ev] |}).

Definition of_result {A : Type} (r : Result A) : M A := fun w => (r, w).

(** One pass over a dataset. *)
Definition iterate {A : Type} (ds : Dataset Input A) : M (list A) := fun w =>
  let '(l, st) := ds (store w) in
  (Ok l, {| disk := disk w; store := st; events := events w |}).

(** [load_model_run]: a new model, compiled with the loss ["mse"] and
    the metrics ["mae"] and ["mse"]. *)
Definition load_model_run : ModelRun :=
  {| run_name := new_run_name;
     model := initial_weights;
     metrics_names := "loss" :: ["mae"; "mse"];
     val_losses := [] |}.

(** **** [model.fit] and its callbacks *)

(** What an epoch of fitting comes to: it completes with new weights
    and a validation loss, or an exception is raised in the middle of
    it, the weights being whatever the interrupted epoch left. *)
Inductive Epoch :=
| Completed (w : Weights) (val_loss : Float)
| Raises (e : Exn) (w : Weights).

Record FitState := mkFitState {
  fit_model : Weights;
  stop_training : bool;
  (* ModelCheckpoint *)
  checkpoint_best : Float;
  (* EarlyStopping *)
  stopping_best : Float;
  stopping_wait : nat;
  (* EpochTracker *)
  last_epoch : nat;
  (* the validation loss recorded for each completed epoch *)
  history : list Float;
  fit_world : World
}.

(** [ModelCheckpoint(filepath, save_best_only=True,
    save_weights_only=True)]: the weights are written, under the path
    formatted with the epoch counted from one, when the validation
    loss is strictly below the best seen. *)
Definition ModelCheckpoint_on_epoch_end (name : string) (epoch : nat) (l : Float)
    (s : FitState) : FitState :=
  if improves l (checkpoint_best s) then
    {| fit_model := fit_model s; stop_training := stop_training s;
       checkpoint_best := l;
       stopping_best := stopping_best s; stopping_wait := stopping_wait s;
       last_epoch := last_epoch s; history := history s;
       fit_world :=
         {| disk := <[checkpoint_path name (S epoch) := fit_model s]>
                      (disk (fit_world s));
            store := store (fit_world s);
            events := events (fit_world s) |} |}
  else s.

(** [EarlyStopping(patience=PATIENCE, restore_best_weights=False)]: an
    epoch whose validation loss improves on the best seen resets the
    count of epochs waited; any other epoch is counted, and fitting is
    told to stop once [PATIENCE] epochs are counted, though never at
    the end of the very first epoch. *)
Definition EarlyStopping_on_epoch_end (epoch : nat) (l : Float)
    (s : FitState) : FitState :=
  if improves l (stopping_best s) then
    {| fit_model := fit_model s; stop_training := stop_training s;
       checkpoint_best := checkpoint_best s;
       stopping_best := l; stopping_wait := 0;
       last_epoch := last_epoch s; history := history s;
       fit_world := fit_world s |}
  else
    {| fit_model := fit_model s;
       stop_training :=
         if (PATIENCE <=? S (stopping_wait s))%nat && (0 <? epoch)%nat then true
         else stop_training s;
       checkpoint_best := checkpoint_best s;
       stopping_best := stopping_best s; stopping_wait := S (stopping_wait s);
       last_epoch := last_epoch s; history := history s;
       fit_world := fit_world s |}.

(** Modelled from the spec: [EpochTracker] (in
    [naip_cnn/utils/training.py], not among the sources) keeps the
    index of the last epoch actually executed: the index of each epoch
    is noted as the epoch begins. *)
Definition EpochTracker_on_epoch_begin (epoch : nat) (s : FitState) : FitState :=
  {| fit_model := fit_model s; stop_training := stop_training s;
     checkpoint_best := checkpoint_best s;
     stopping_best := stopping_best s; stopping_wait := stopping_wait s;
     last_epoch := epoch; history := history s;
     fit_world := fit_world s |}.

(** [WandbMetricsLogger] and the history of [fit]: the epoch's
    validation loss is recorded. *)
Definition record_epoch (epoch : nat) (l : Float) (s : FitState) : FitState :=
  {| fit_model := fit_model s; stop_training := stop_training s;
     checkpoint_best := checkpoint_best s;
     stopping_best := stopping_best s; stopping_wait := stopping_wait s;
     last_epoch := last_epoch s; history := history s ++ [l];
     fit_world :=
       {| disk := disk (fit_world s);
          store := store (fit_world s);
          events := events (fit_world s) ++ [WandbLogEpoch epoch l] |} |}.

(** The end of the training steps of an epoch: the model has its new
    weights. *)
Definition set_weights (w : Weights) (s : FitState) : FitState :=
  {| fit_model := w; stop_training := stop_training s;
     checkpoint_best := checkpoint_best s;
     stopping_best := stopping_best s; stopping_wait := stopping_wait s;
     last_epoch := last_epoch s; history := history s;
     fit_world := fit_world s |}.

(** A completed epoch has made one pass over the training data and
    one over the validation data. *)
Definition run_passes (train val : Dataset Input (Batch Input))
    (s : FitState) : FitState :=
  let st := snd (val (snd (train (store (fit_world s))))) in
  {| fit_model := fit_model s; stop_training := stop_training s;
     checkpoint_best := checkpoint_best s;
     stopping_best := stopping_best s; stopping_wait := stopping_wait s;
     last_epoch := last_epoch s; history := history s;
     fit_world :=
       {| disk := disk (fit_world s); store := st;
          events := events (fit_world s) |} |}.

(** The callbacks run in the order of the list given to [fit]. *)
Definition on_epoch_end (name : string) (epoch : nat) (l : Float)
    (s : FitState) : FitState :=
  record_epoch epoch l
    (EarlyStopping_on_epoch_end epoch l
       (ModelCheckpoint_on_epoch_end name epoch l s)).

(** How [fit] ended, and at which epoch index. *)
Inductive FitExit :=
| Exhausted
| EarlyStopped (epoch : nat)
| Raised (epoch : nat) (e : Exn).

Fixpoint fit_loop (name : string) (train val : Dataset Input (Batch Input))
    (oracle : nat -> Epoch) (remaining epoch : nat) (s : FitState)
    : FitExit * FitState :=
  match remaining with
  | O => (Exhausted, s)
  | S remaining' =>
      let s := EpochTracker_on_epoch_begin epoch s in
      match oracle epoch with
      | Raises e w => (Raised epoch e, set_weights w s)
      | Completed w l =>
          let s := on_epoch_end name epoch l
                     (set_weights w (run_passes train val s)) in
          if stop_training s then (EarlyStopped epoch, s)
          else fit_loop name train val oracle remaining' (S epoch) s
      end
  end.

Definition fit_start (mr : ModelRun) (w : World) : FitState :=
  {| fit_model := model mr; stop_training := false;
     checkpoint_best := PosInf;
     stopping_best := PosInf; stopping_wait := 0;
     last_epoch := 0; history := [];
     fit_world := w |}.

(** [model.fit(train, validation_data=val, epochs=EPOCHS,
    callbacks=...)]. *)
Definition fit (mr : ModelRun) (train val : Dataset Input (Batch Input))
    (oracle : nat -> Epoch) (w : World) : FitExit * FitState :=
  fit_loop (run_name mr) train val oracle EPOCHS 0 (fit_start mr w).

(** **** [train_model] *)

(** The checkpoints of a run found in the checkpoint directory, each
    with the epoch its name parses to. *)
Definition checkpoints_of (name : string) (d : gmap string Weights)
    : list (nat * Weights) :=
  omap (fun f => e ← parse_epoch name f.1; Some (e, f.2)) (map_to_list d).

(** A checkpoint found, with the validation loss recorded for its
    epoch; a checkpoint whose epoch has no recorded loss, or a loss
    that is not a number, is not ranked. *)
Definition ranked (h : list Float) (c : nat * Weights)
    : option (nat * Float * Weights) :=
  l ← recorded h c.1;
  if isnan l then None else Some (c.1, l, c.2).

(** The order of the ranked checkpoints: by loss, then by epoch. *)
Definition before (c b : nat * Float * Weights) : bool :=
  less c.1.2 b.1.2 || (negb (less b.1.2 c.1.2) && (c.1.1 <? b.1.1)%nat).

(** Of several ranked checkpoints, the first in that order. *)
Definition lowest (cs : list (nat * Float * Weights))
    : option (nat * Float * Weights) :=
  foldr (fun c acc =>
           match acc with
           | Some b => if before c b then Some c else Some b
           | None => Some c
           end) None cs.

Definition with_model (mr : ModelRun) (w : Weights) : ModelRun :=
  {| run_name := run_name mr; model := w; metrics_names := metrics_names mr;
     val_losses := val_losses mr |}.

(** Modelled from the spec: [ModelRun.load_best_checkpoint] (in
    [naip_cnn/models.py], not among the sources) finds the checkpoints
    of the run on disk, parsing the epoch out of each name (section 6),
    selects among them the epoch with the numerically lowest recorded
    validation loss (section 8), reloads its weights into the live
    model and returns the epoch (section 4.4).  The recorded losses
    are those of the model's fit history; of several epochs with the
    lowest loss the earliest is taken.  Where no checkpoint can be
    selected, the run goes on with the weights the model has (section
    4.4); the epoch returned is then 0, the number of no checkpoint. *)
Definition load_best_checkpoint (mr : ModelRun) : M (nat * ModelRun) := fun w =>
  match lowest (omap (ranked (val_losses mr))
                  (checkpoints_of (run_name mr) (disk w))) with
  | Some (e, _, weights) => (Ok (e, with_model mr weights), w)
  | None => (Ok (0%nat, mr), w)
  end.

(** The model run after [fit]: the model has the weights and the
    history that fitting left. *)
Definition fitted (mr : ModelRun) (s : FitState) : ModelRun :=
  {| run_name := run_name mr; model := fit_model s;
     metrics_names := metrics_names mr; val_losses := history s |}.

Definition train_model (oracle : nat -> Epoch) (mr : ModelRun)
    (train val : Dataset Input (Batch Input)) : M TrainingResult := fun w =>
  let '(exit, s) := fit mr train val oracle w in
  let mr' := fitted mr s in
  let after_fit : M bool :=
    match exit with
    | Raised _ KeyboardInterrupt =>
        (* model_run.model.stop_training = True *)
        _ ← emit (Print "Training stopped manually. Evaluating model...");
        mret true
    | Raised _ e => raise e
    | Exhausted | EarlyStopped _ => mret false
    end in
  (interrupted ← after_fit;
   '(best_epoch, mr'') ← load_best_checkpoint mr';
   let stopped_epoch := last_epoch s in
   mret {| model_run := mr''; best_epoch := best_epoch;
           stopped_epoch := stopped_epoch; interrupted := interrupted |})
    (fit_world s).

(** **** [evaluate_model] *)

(** [model.predict(val)]: one pass, the predictions of the batches
    joined; a dataset without batches is refused. *)
Definition predict (m : Weights) (val : Dataset Input (Batch Input))
    : M (list Label) :=
  batches ← iterate val;
  match batches with
  | [] => raise ValueError
  | _ :: _ => mret (concat (map (fun b => map (predict_step m) (fst b)) batches))
  end.

(** [model.evaluate(val)]: one pass, the values of the compiled
    metrics. *)
Definition evaluate (m : Weights) (val : Dataset Input (Batch Input))
    : M (list Float) :=
  batches ← iterate val;
  match batches with
  | [] => raise ValueError
  | _ :: _ => mret (evaluate_metrics m batches)
  end.

(** [np.concatenate] along the first axis; an empty list of arrays is
    refused. *)
Definition np_concatenate (arrays : list (list Label)) : Result (list Label) :=
  match arrays with
  | [] => Raise ValueError
  | _ :: _ => Ok (concat arrays)
  end.

(** [a.ravel()]. *)
Definition ravel (a : list Label) : list Float := concat a.

Definition log_correlation_scatterplot (y_true y_pred : list Label) : M unit :=
  emit (WandbLogImage "scatter").

Definition log_distribution_histogram (y_true y_pred : list Label) : M unit :=
  emit (WandbLogImage "hist").

(** The arrays [y_pred] and [y_true] of [evaluate_model], and the
    metric values, in the order the function computes them. *)
Definition evaluation_arrays (tr : TrainingResult)
    (val : Dataset Input (Batch Input))
    : M (list Label * list Label * list Float) :=
  y_pred ← predict (model (model_run tr)) val;
  data ← iterate val;
  y_true ← of_result (np_concatenate (map snd data));
  metric_vals ← evaluate (model (model_run tr)) val;
  mret (y_pred, y_true, metric_vals).

(** The dictionary [metrics] before its keys are prefixed. *)
Definition metrics_dict (tr : TrainingResult) (r2 : Value)
    (metric_vals : list Float) : gmap string Value :=
  foldl (fun metrics kv => <[kv.1 := VFloat kv.2]> metrics)
    (<["r2_score" := r2]>
       (<["stopped_epoch" := VInt (stopped_epoch tr)]>
          (<["best_epoch" := VInt (best_epoch tr)]> ∅)))
    (zip (metrics_names (model_run tr)) metric_vals).

Definition evaluate_model (tr : TrainingResult)
    (val : Dataset Input (Batch Input)) : M (gmap string Value) :=
  '(y_pred, y_true, metric_vals) ← evaluation_arrays tr val;
  r2 ← of_result (r2_score ar (ravel y_true) (ravel y_pred));
  let metrics := metrics_dict tr r2 metric_vals in
  _ ← log_correlation_scatterplot y_true y_pred;
  _ ← log_distribution_histogram y_true y_pred;
  mret (kmap (String.append "final/") metrics).

(** **** [train] *)

(** [gpu] tells whether [tf.config.list_physical_devices("GPU")] lists
    a device. *)
Definition train (allow_duplicate_runs allow_cpu gpu : bool)
    (oracle : nat -> Epoch) : M unit :=
  _ ← (if negb allow_cpu then
         if gpu then mret tt else raise AssertionError
       else mret tt);
  let '(train, val) :=
    load_data shuffle_order BATCH_SIZE load_train load_val in
  let model_run := load_model_run in
  _ ← emit (WandbInit allow_duplicate_runs);
  _ ← emit WandbLogCode;
  training_result ← train_model oracle model_run train val;
  _ ← emit WandbLogModel;
  summary ← evaluate_model training_result val;
  let summary := <["interrupted" := VBool (interrupted training_result)]> summary in
  _ ← emit (WandbSummaryUpdate summary);
  _ ← (if negb (interrupted training_result) then
         match summary !! "final/r2_score", summary !! "final/mae" with
         | Some r2, Some mae => emit (WandbAlert "Run Complete" r2 mae)
         | _, _ => raise KeyError
         end
       else mret tt);
  emit WandbFinish.

End Run.

Arguments run_name {Weights} _.
Arguments model {Weights} _.
Arguments metrics_names {Weights} _.
Arguments val_losses {Weights} _.
Arguments model_run {Weights} _.
Arguments best_epoch {Weights} _.
Arguments stopped_epoch {Weights} _.
Arguments interrupted {Weights} _.
Arguments disk {Input Weights} _.
Arguments store {Input Weights} _.
Arguments events {Input Weights} _.
Arguments Completed {Weights} _ _.
Arguments Raises {Weights} _ _.
Arguments fit_model {Input Weights} _.
Arguments stop_training {Input Weights} _.
Arguments checkpoint_best {Input Weights} _.
Arguments stopping_best {Input Weights} _.
Arguments stopping_wait {Input Weights} _.
Arguments last_epoch {Input Weights} _.
Arguments history {Input Weights} _.
Arguments fit_world {Input Weights} _.
Arguments raise {Input Weights A} _ _.
Arguments emit {Input Weights} _ _.
Arguments of_result {Input Weights A} _ _.
Arguments iterate {Input Weights A} _ _.
Arguments load_model_run {Weights} _ _.
Arguments ModelCheckpoint_on_epoch_end {Input Weights} _ _ _ _.
Arguments EarlyStopping_on_epoch_end {Input Weights} _ _ _ _.
Arguments EpochTracker_on_epoch_begin {Input Weights} _ _.
Arguments record_epoch {Input Weights} _ _ _.
Arguments set_weights {Input Weights} _ _.
Arguments run_passes {Input Weights} _ _ _.
Arguments on_epoch_end {Input Weights} _ _ _ _ _.
Arguments fit_loop {Input Weights} _ _ _ _ _ _ _ _.
Arguments fit_start {Input Weights} _ _.
Arguments fit {Input Weights} _ _ _ _ _ _ _.
Arguments checkpoints_of {Weights} _ _.
Arguments ranked {Weights} _ _.
Arguments before {Weights} _ _.
Arguments lowest {Weights} _.
Arguments fitted {Input Weights} _ _.
Arguments load_best_checkpoint {Input Weights} _ _.
Arguments with_model {Weights} _ _.
Arguments train_model {Input Weights} _ _ _ _ _ _ _.
Arguments predict {Input Weights} _ _ _ _.
Arguments evaluate {Input Weights} _ _ _ _.
Arguments log_correlation_scatterplot {Input Weights} _ _ _.
Arguments log_distribution_histogram {Input Weights} _ _ _.
Arguments evaluation_arrays {Input Weights} _ _ _ _ _.
Arguments metrics_dict {Weights} _ _ _.
Arguments evaluate_model {Input Weights} _ _ _ _ _ _.
Arguments train {Input Weights} _ _ _ _ _ _ _ _ _ _ _ _ _ _ _ _.

End Train.

(** ** Part III: inputs for the examples *)

Module Examples.
Import Acquisitions Train.

(** A date filter that keeps the stamps from [start] up to, and not
    including, [end]. *)
Definition half_open (start_ end_ t : string) : bool :=
  String.leb start_ t && String.ltb t end_.

Definition everywhere (v : Z) : Raster := fun _ => Some v.

(** A raster with data on the cells [x0 <= x < x1] of the row [y = 0]. *)
Definition strip (x0 x1 v : Z) : Raster := fun l =>
  if (x0 <=? l.1) && (l.1 <? x1) && (l.2 =? 0) then Some v else None.

(** A change product with one slice, of 2008, stable everywhere. *)
Definition LCMS_2008 : list Slice :=
  [ {| study_area := "CONUS"; time_start := "2008-06-01";
       Change := everywhere 1 |} ].


(** A survey raster of one unit cell, and a capture of the same summer
    that reaches one cell further east. *)
Definition survey : Scene :=
  {| scene_time := "2007-07-01";
     scene_footprint := {| xmin := 0; ymin := 0; xmax := 1; ymax := 1 |};
     scene_pixels := strip 0 1 12 |}.

Definition capture : Scene :=
  {| scene_time := "2009-07-01";
     scene_footprint := {| xmin := 0; ymin := 0; xmax := 2; ymax := 1 |};
     scene_pixels := strip 0 2 200 |}.

Definition archive (path : string) : option Scene :=
  if String.eqb path "projects/ee-maptheforests/assets/malheur_lidar/MAL2007"
  then Some survey else None.



(** An arithmetic without rounding: exact on the finite values; what
    is not a finite value gives NaN. *)
Definition exact2 (f : Q -> Q -> Q) (x y : Float) : Float :=
  match x, y with
  | Finite a, Finite b => Finite (Qred (f a b))
  | _, _ => NaN
  end.

Definition exact : Arith :=
  {| fsub := exact2 Qminus;
     fdiv := fun x y => if nonzero y then exact2 Qdiv x y else NaN;
     fsquare := fun x => exact2 Qmult x x;
     fsum := foldr (exact2 Qplus) (Finite 0);
     faverage := fun l =>
       exact2 Qdiv (foldr (exact2 Qplus) (Finite 0) l)
         (Finite (inject_Z (Z.of_nat (length l)))) |}.

(** A validation set of four samples whose label is the input itself,
    and a model that reads the label off the input. *)
Definition demo_samples : list (Sample nat) :=
  [(1%nat, [Finite 1]); (2%nat, [Finite 2]); (3%nat, [Finite 3]); (4%nat, [Finite 4])].

Definition demo_predict (w x : nat) : Label := [Finite (inject_Z (Z.of_nat x))].

Definition demo_metrics (w : nat) (batches : list (Batch nat)) : list Float :=
  [Finite 0; Finite 0; Finite 0].

Definition demo_shuffle (pass buffer_size : nat) (l : list (Sample nat))
    : list (Sample nat) :=
  rotate pass l.

Definition empty_world : World nat nat :=
  {| disk := ∅; store := {| caches := ∅; passes := 0 |}; events := [] |}.

(** A fit of three epochs, the second the best, stopped by hand during
    the fourth. *)
Definition stopped_by_hand (epoch : nat) : Epoch nat :=
  match epoch with
  | 0%nat => Completed 10%nat (Finite 5)
  | 1%nat => Completed 11%nat (Finite 3)
  | 2%nat => Completed 12%nat (Finite 4)
  | _ => Raises KeyboardInterrupt 13%nat
  end.

Definition demo_data : Dataset nat (Batch nat) * Dataset nat (Batch nat) :=
  load_data demo_shuffle 2 (fun _ => demo_samples) (fun _ => demo_samples).

Definition demo_run : ModelRun nat := load_model_run 0%nat "run".

Definition demo_result : TrainingResult nat :=
  {| model_run := demo_run; best_epoch := 2; stopped_epoch := 3;
     interrupted := true |}.

(** A validation pipeline of four batches of eight. *)
Definition four_by_eight : Dataset nat (Batch nat) := fun st =>
  (replicate 4 (replicate 8 0%nat, replicate 8 [Finite 1]), st).

(** A reader that loses a sample after its first pass. *)
Definition shrinking (pass : nat) : list (Sample nat) :=
  match pass with
  | 0%nat => [(1%nat, [Finite 1]); (2%nat, [Finite 2])]
  | _ => [(1%nat, [Finite 1])]
  end.

Definition shrinking_val : Dataset nat (Batch nat) :=
  batch 1 true (from_reader shrinking).




(** The summary the command publishes. *)
Definition demo_published : gmap string Value :=
  <["interrupted" := VBool true]>
    (kmap (String.append "final/")
       (metrics_dict demo_result (VFloat (Finite 1))
          [Finite 0; Finite 0; Finite 0])).

End Examples.

(** ** Part IV: notions used in the statements *)

Module AcquisitionsAux.
Import Acquisitions.

Section Window.

Variable date_in_range : string -> string -> string -> bool.
Variable LCMS : list Slice.
Variable NAIP : list Scene.

(** A slice of the change product that counts for an acquisition: one
    of the collection, of the study area [CONUS], that the backend's
    date filter keeps for the acquisition's two dates. *)
Definition in_window (a : Acquisition) (s : Slice) : Prop :=
  s ∈ LCMS /\ study_area s = "CONUS" /\
  date_in_range (start_date a) (end_date a) (time_start s) = true.

(** A capture that [load_naip] composites for a survey of footprint
    [g]: one that the date filter keeps for the acquisition's dates and
    whose footprint intersects [g]. *)
Definition selected (a : Acquisition) (g : Box) (c : Scene) : Prop :=
  date_in_range (start_date a) (end_date a) (scene_time c) = true /\
  box_intersects (scene_footprint c) g = true.

(** The capture [c] is on top at [l] among the captures of the
    collection that satisfy [sel]: it is one of them and has data at
    [l], and none of them after it in collection order has. *)
Definition on_top (sel : Scene -> Prop) (c : Scene) (l : Loc) : Prop :=
  exists before after,
    NAIP = (before ++ c :: after)%list /\
    sel c /\ is_Some (scene_pixels c l) /\
    Forall (fun c' => sel c' -> scene_pixels c' l = None) after.

End Window.

End AcquisitionsAux.

Module TrainAux.
Import Train.



Section Inv.
Context {Input Weights : Type}.

(** What [fit] leaves behind, by the way it ended. *)
Definition exit_spec (oracle : nat -> Epoch Weights) (first remaining : nat)
    (exit : FitExit) (s' : FitState Input Weights) : Prop :=
  match exit with
  | Exhausted =>
      length (history s') = (first + remaining)%nat
  | EarlyStopped K =>
      length (history s') = S K /\ last_epoch s' = K /\
      (first <= K < first + remaining)%nat
  | Raised K e =>
      length (history s') = K /\ last_epoch s' = K /\
      (first <= K < first + remaining)%nat /\
      exists w, oracle K = Raises e w
  end.

(** What the metrics logger sends for a history of validation losses:
    one record for each epoch, counted from zero. *)
Definition epoch_logs (h : list Float) : list Event :=
  imap (fun i l => WandbLogEpoch i l) h.

(** What [train_model] makes of a fit that has ended, in the world
    [w1]: the checkpoint restored if the restore selects one, the
    model as fitting left it if not. *)
Definition restored (mr : ModelRun Weights) (s : FitState Input Weights)
    (flag : bool) (w1 : World Input Weights)
    : Result (TrainingResult Weights) * World Input Weights :=
  match lowest (omap (ranked (history s))
                  (checkpoints_of (run_name mr) (disk w1))) with
  | Some (e, _, wt) =>
      (Ok {| model_run := with_model (fitted mr s) wt; best_epoch := e;
             stopped_epoch := last_epoch s; interrupted := flag |}, w1)
  | None =>
      (Ok {| model_run := fitted mr s; best_epoch := 0%nat;
             stopped_epoch := last_epoch s; interrupted := flag |}, w1)
  end.

End Inv.

Section Worlds.
Context {Input Weights : Type}.

Definition set_store (w : World Input Weights) (st : Store Input)
    : World Input Weights :=
  {| disk := disk w; store := st; events := events w |}.

Definition log_events (w : World Input Weights) (evs : list Event)
    : World Input Weights :=
  {| disk := disk w; store := store w; events := (events w ++ evs)%list |}.
(** The world in which [train] starts fitting: the tracking run is
    initialised and the code is logged. *)
Definition started (allow_duplicate_runs : bool) (w : World Input Weights) : World Input Weights :=
  log_events (log_events w [WandbInit allow_duplicate_runs]) [WandbLogCode].


(** The samples of a pass over the validation data, in order. *)
Definition val_samples (BATCH_SIZE : nat)
    (load_val : nat -> list (Sample Input)) (st : Store Input) : list (Sample Input) :=
  concat (batch_go BATCH_SIZE true []
            (cache 1 (from_reader load_val) st).1).

End Worlds.


(** A published summary made of metrics under the [final/] prefix and
    of the flag [interrupted]. *)
Definition final_metrics_and_flag (published : gmap string Value) : Prop :=
  exists (metrics : gmap string Value) (flag : bool),
    published = <["interrupted" := VBool flag]> metrics /\
    forall k, is_Some (metrics !! k) -> String.prefix "final/" k = true.

Definition summary_ok (ev : Event) : Prop :=
  match ev with
  | WandbSummaryUpdate published => final_metrics_and_flag published
  | _ => True
  end.

(** The events of fitting: the per-epoch record and the note printed
    on a manual stop. *)
Definition quiet (ev : Event) : Prop :=
  match ev with
  | WandbLogEpoch _ _ | Print _ => True
  | _ => False
  end.

End TrainAux.

(** ** Part V: properties of [acquisitions.py] *)

Module AcquisitionsSpec.
Import Acquisitions AcquisitionsAux Examples.

(** **** The reduction of the fast-loss tests *)

Lemma omap_cons_match {A B : Type} (f : A -> option B) (x : A) (l : list A) :
  omap f (x :: l) =
  match f x with
  | Some y => y :: omap f l
  | None => omap f l
  end.
Proof. reflexivity. Qed.

(** The values of the fast-loss tests of the slices [ws] at a position:
    one value for each slice with data there. *)
Lemma tests_at (ws : list Slice) (l : Loc) :
  omap (fun img => pixels img l)
    (map (fun img => img_eq 3 img)
       (map (fun s => {| pixels := Change s; projection := None |}) ws)) =
  omap (fun s => (fun v => if v =? 3 then 1 else 0) <$> Change s l) ws.
Proof.
  induction ws as [|s ws IH]; [reflexivity|].
  cbn [map]. rewrite !omap_cons_match. cbn [img_eq pixels]. by rewrite IH.
Qed.

Lemma tests_cases (ws : list Slice) (l : Loc) :
  let m :=
    max_value
      (omap (fun s => (fun v => if v =? 3 then 1 else 0) <$> Change s l) ws) in
  (m = None /\ forall s, s ∈ ws -> Change s l = None) \/
  (m = Some 1 /\ exists s, s ∈ ws /\ Change s l = Some 3) \/
  (m = Some 0 /\ (forall s, s ∈ ws -> Change s l <> Some 3) /\
   exists s, s ∈ ws /\ is_Some (Change s l)).
Proof.
  induction ws as [|s ws IH]; cbn zeta in *.
  - left. split; [reflexivity|]. intros s Hs. inversion Hs.
  - rewrite omap_cons_match. destruct (Change s l) as [v|] eqn:Hv;
      cbn [fmap option_fmap option_map].
    + unfold max_value in *. cbn [foldr]. right.
      destruct (Z.eqb_spec v 3) as [->|Hne].
      * left. split.
        { destruct IH as [[-> _]|[[-> _]|[-> _]]]; reflexivity. }
        exists s. split; [left|exact Hv].
      * destruct IH as [[-> Hnone]|[[-> (s' & Hin & Hs')]|[-> [Hall (s' & Hin & Hs')]]]].
        { right. split; [reflexivity|]. split.
          - intros s' [->|Hin]%elem_of_cons; [congruence|].
            rewrite (Hnone s' Hin). discriminate.
          - exists s. split; [left|by rewrite Hv]. }
        { left. split; [reflexivity|]. exists s'. split; [by right|done]. }
        { right. split; [reflexivity|]. split.
          - intros s'' [->|Hin']%elem_of_cons; [congruence|by apply Hall].
          - exists s. split; [left|by rewrite Hv]. }
    + destruct IH as [[Hm Hnone]|[[Hm (s' & Hin & Hs')]|[Hm [Hall (s' & Hin & Hs')]]]].
      * left. split; [exact Hm|].
        intros s' [->|Hin]%elem_of_cons; [exact Hv|by apply Hnone].
      * right. left. split; [exact Hm|]. exists s'. split; [by right|done].
      * right. right. split; [exact Hm|]. split.
        { intros s'' [->|Hin']%elem_of_cons; [congruence|by apply Hall]. }
        exists s'. split; [by right|done].
Qed.

(** **** The captures composited *)

Section Captures.

Variable date_in_range : string -> string -> string -> bool.

Local Abbreviation selected := (selected date_in_range).

Implicit Types (cs : list Scene) (c : Scene).

(** The captures of [cs] that [load_naip] composites. *)
Local Abbreviation captures a g cs :=
  (filterBounds (bounds g)
     (filter (fun s => date_in_range (start_date a) (end_date a)
                         (scene_time s) = true) cs)).

Lemma captures_cons a g c cs :
  captures a g (c :: cs) =
  if decide (selected a g c) then c :: captures a g cs else captures a g cs.
Proof.
  unfold filterBounds, bounds, AcquisitionsAux.selected.
  rewrite (filter_cons _ c cs).
  destruct (decide (date_in_range (start_date a) (end_date a) (scene_time c)
                    = true)) as [Hd|Hd].
  - rewrite filter_cons.
    destruct (decide (box_intersects (scene_footprint c) g = true)) as [Hb|Hb].
    + by rewrite decide_True.
    + rewrite decide_False; [reflexivity|tauto].
  - rewrite decide_False; [reflexivity|tauto].
Qed.

Lemma mosaic_none a g cs l :
  mosaic_pixels (captures a g cs) l = None <->
  Forall (fun c => selected a g c -> scene_pixels c l = None) cs.
Proof.
  induction cs as [|c cs IH].
  - split; [constructor|reflexivity].
  - rewrite captures_cons, Forall_cons.
    destruct (decide (selected a g c)) as [Hs|Hs].
    + cbn [mosaic_pixels]. destruct (mosaic_pixels (captures a g cs) l) as [v|].
      * split; [discriminate|]. intros [_ H]. by apply IH in H.
      * split.
        { intros H. split; [done|]. by apply IH. }
        { intros [H _]. by apply H. }
    + rewrite IH. tauto.
Qed.

(** The composite has, at each position, the value of the capture on
    top there. *)
Lemma mosaic_on_top a g cs l v :
  mosaic_pixels (captures a g cs) l = Some v <->
  exists c, on_top cs (selected a g) c l /\ scene_pixels c l = Some v.
Proof.
  induction cs as [|c0 cs IH].
  - split; [discriminate|].
    intros (c & (before & after & H & _) & _). by destruct before.
  - rewrite captures_cons.
    assert (Hlater : (exists c, on_top cs (selected a g) c l /\
                                scene_pixels c l = Some v) ->
                     exists c, on_top (c0 :: cs) (selected a g) c l /\
                               scene_pixels c l = Some v).
    { intros (c & (b & af & -> & Hc) & Hv). exists c. split; [|exact Hv].
      by exists (c0 :: b), af. }
    destruct (decide (selected a g c0)) as [Hs|Hs].
    + cbn [mosaic_pixels].
      destruct (mosaic_pixels (captures a g cs) l) as [v'|] eqn:Hrest.
      * split.
        { intros [= ->]. apply Hlater, IH. reflexivity. }
        intros (c & (b & af & Heq & Hsel & Hdata & Hafter) & Hv).
        destruct b as [|c1 b]; cbn in Heq; injection Heq as -> ->.
        { apply mosaic_none in Hafter. congruence. }
        apply IH. exists c. split; [|exact Hv]. by exists b, af.
      * split.
        { intros Hv. exists c0. split; [|exact Hv].
          exists [], cs. split; [reflexivity|]. split; [exact Hs|].
          split; [by rewrite Hv|]. by apply mosaic_none. }
        intros (c & (b & af & Heq & Hsel & Hdata & Hafter) & Hv).
        destruct b as [|c1 b]; cbn in Heq; injection Heq as -> ->; [exact Hv|].
        assert (Hsome : @None Z = Some v); [|discriminate].
        apply IH. exists c. split; [|exact Hv]. by exists b, af.
    + split.
      * intros Hv. apply Hlater, IH, Hv.
      * intros (c & (b & af & Heq & Hsel & Hdata & Hafter) & Hv).
        destruct b as [|c1 b]; cbn in Heq; injection Heq as -> ->; [done|].
        apply IH. exists c. split; [|exact Hv]. by exists b, af.
Qed.

End Captures.

Section Properties.

Variable CRS : string.
Variable date_in_range : string -> string -> string -> bool.
Variable LCMS : list Slice.
Variable NAIP : list Scene.
Variable assets : string -> option Scene.

Local Abbreviation window := (window date_in_range LCMS).
Local Abbreviation mask := (mask CRS date_in_range LCMS).
Local Abbreviation load_naip := (load_naip CRS date_in_range LCMS NAIP assets).
Local Abbreviation load_lidar := (load_lidar CRS date_in_range LCMS assets).
Local Abbreviation in_window := (in_window date_in_range LCMS).
Local Abbreviation selected := (selected date_in_range).
Local Abbreviation on_top := (on_top NAIP).

Lemma elem_of_window a s : s ∈ window a <-> in_window a s.
Proof.
  unfold Acquisitions.window, AcquisitionsAux.in_window.
  rewrite !list_elem_of_filter. tauto.
Qed.

Lemma mask_pixels a l :
  pixels (mask a) l =
  match window a with
  | [] => Some 1
  | _ :: _ =>
      (fun m => if m =? 0 then 1 else 0) <$>
        max_value
          (omap (fun s => (fun v => if v =? 3 then 1 else 0) <$> Change s l)
             (window a))
  end.
Proof.
  unfold Acquisitions.mask. cbn [pixels reproject img_eq reduce_max].
  rewrite tests_at. by destruct (window a).
Qed.

(** The three values of the mask at a position. *)
Lemma mask_cases a l :
  (pixels (mask a) l = Some 0 /\
   exists s, in_window a s /\ Change s l = Some 3) \/
  (pixels (mask a) l = Some 1 /\
   (forall s, in_window a s -> Change s l <> Some 3) /\
   ((exists s, in_window a s /\ is_Some (Change s l)) \/
    forall s, ~ in_window a s)) \/
  (pixels (mask a) l = None /\
   (exists s, in_window a s) /\
   forall s, in_window a s -> Change s l = None).
Proof.
  rewrite mask_pixels.
  destruct (window a) as [|s0 ws] eqn:Hw.
  - right. left. split; [reflexivity|].
    assert (Hno : forall s, ~ in_window a s).
    { intros s Hs. apply elem_of_window in Hs. rewrite Hw in Hs. inversion Hs. }
    split; [|by right]. intros s Hs. by destruct (Hno s).
  - rewrite <- Hw.
    destruct (tests_cases (window a) l)
      as [[-> Hnone]|[[-> (s & Hin & Hs)]|[-> [Hall (s & Hin & Hs)]]]];
      cbn [fmap option_fmap option_map Z.eqb].
    + right. right. split; [reflexivity|]. split.
      * exists s0. apply elem_of_window. rewrite Hw. left.
      * intros s Hs. by apply Hnone, elem_of_window.
    + left. split; [reflexivity|]. exists s. split; [by apply elem_of_window|done].
    + right. left. split; [reflexivity|]. split.
      * intros s' Hs'. by apply Hall, elem_of_window.
      * left. exists s. split; [by apply elem_of_window|done].
Qed.




(** **** The two layers *)

(** What a layer keeps of an image under the mask. *)
Lemma updateMask_pixels (img : Image) a l v :
  pixels (updateMask img (mask a)) l = Some v <->
  pixels (mask a) l = Some 1 /\ pixels img l = Some v.
Proof.
  cbn [pixels updateMask].
  destruct (mask_cases a l) as [[-> _]|[[-> _]|[-> _]]]; cbn [Z.eqb];
    split; try discriminate; try (by intros [? ?]). by intros H.
Qed.

(** C3, as amended.  For every acquisition whose survey raster exists,
    the input layer and the label layer are forced onto grids of the
    same coordinate reference, of 1 unit and of 30 units (every
    30-unit cell is a block of 30 by 30 unit cells), and both are cut
    by the same validity mask.  The input layer has a value at a
    position exactly where the mask is true and some capture of the
    imagery collection that the date filter keeps for the
    acquisition's dates, and whose footprint intersects the bounds of
    the survey raster, has data: the value of the last such capture in
    collection order.  The label layer has a value exactly where the
    mask is true and the survey raster has data: the value of the
    raster. *)
Theorem layers_share_grid_and_mask a naip lidar :
  load_naip a = Some naip ->
  load_lidar a = Some lidar ->
  exists survey pn pl,
    assets (asset_path a) = Some survey /\
    projection naip = Some pn /\ projection lidar = Some pl /\
    crs pn = CRS /\ crs pl = CRS /\
    scale pn = 1 /\ scale pl = 30 /\
    (forall l, cell pl l = ((cell pn l).1 / 30, (cell pn l).2 / 30)) /\
    (forall l v,
        pixels naip l = Some v <->
        pixels (mask a) l = Some 1 /\
        exists c, on_top (selected a (scene_footprint survey)) c l /\
                  scene_pixels c l = Some v) /\
    (forall l v,
        pixels lidar l = Some v <->
        pixels (mask a) l = Some 1 /\ scene_pixels survey l = Some v).
Proof.
  unfold Acquisitions.load_naip, Acquisitions.load_lidar, geometry.
  destruct (assets (asset_path a)) as [s|]; [|discriminate].
  cbn [fmap option_fmap option_map mbind option_bind].
  intros [= <-] [= <-].
  exists s. do 2 eexists. do 7 (split; [reflexivity|]). split; [|split].
  - intros l. unfold cell. cbn [scale atScale proj ee_Projection fst snd].
    by rewrite !Z.div_1_r.
  - intros l v. cbn [pixels reproject]. rewrite updateMask_pixels.
    cbn [pixels mosaic]. by rewrite mosaic_on_top.
  - intros l v. cbn [pixels reproject]. by rewrite updateMask_pixels.
Qed.

End Properties.



(** An input layer with data where the label layer has none: the
    capture selected for the survey reaches beyond the survey raster. *)
Lemma layer_footprints_differ :
  exists naip lidar,
    load_naip "EPSG:5070" half_open LCMS_2008 [capture] archive MAL2007 = Some naip /\
    load_lidar "EPSG:5070" half_open LCMS_2008 archive MAL2007 = Some lidar /\
    ~ (forall l, is_Some (pixels naip l) <-> is_Some (pixels lidar l)).
Proof.
  do 2 eexists. split; [reflexivity|]. split; [reflexivity|].
  intros H. destruct (H (1, 0)) as [H1 _].
  destruct H1 as [v Hv]; [by eexists|]. vm_compute in Hv. discriminate.
Qed.

Lemma layers_share_grid_and_mask_witness :
  exists naip lidar,
    load_naip "EPSG:5070" half_open LCMS_2008 [capture] archive MAL2007 = Some naip /\
    load_lidar "EPSG:5070" half_open LCMS_2008 archive MAL2007 = Some lidar /\
    exists survey pn pl,
      archive (asset_path MAL2007) = Some survey /\
      projection naip = Some pn /\ projection lidar = Some pl /\
      crs pn = "EPSG:5070" /\ crs pl = "EPSG:5070" /\
      scale pn = 1 /\ scale pl = 30 /\
      (forall l, cell pl l = ((cell pn l).1 / 30, (cell pn l).2 / 30)) /\
      (forall l v,
          pixels naip l = Some v <->
          pixels (mask "EPSG:5070" half_open LCMS_2008 MAL2007) l = Some 1 /\
          exists c, on_top [capture]
                      (selected half_open MAL2007 (scene_footprint survey)) c l /\
                    scene_pixels c l = Some v) /\
      (forall l v,
          pixels lidar l = Some v <->
          pixels (mask "EPSG:5070" half_open LCMS_2008 MAL2007) l = Some 1 /\
          scene_pixels survey l = Some v).
Proof.
  do 2 eexists. split; [reflexivity|]. split; [reflexivity|].
  exact (layers_share_grid_and_mask "EPSG:5070" half_open LCMS_2008 [capture]
           archive MAL2007 _ _ eq_refl eq_refl).
Defined.

(** C7, as amended.  Constructing an [Acquisition] stores its three
    arguments and checks nothing; every acquisition of the registry has
    its start date at or before its end date. *)
Theorem init_stores_and_registry_is_ordered :
  (forall n s e,
      name (__init__ n s e) = n /\
      start_date (__init__ n s e) = s /\
      end_date (__init__ n s e) = e) /\
  Forall (fun a => date_ordered a = true) registry.
Proof.
  split; [by intros n s e|]. repeat constructor.
Qed.

(** An acquisition is constructed with its end date before its start
    date. *)
Lemma init_accepts_reversed_dates :
  exists a, a = __init__ "MAL2030" "2030-12-31" "2030-01-01" /\
            date_ordered a = false.
Proof. eexists. split; reflexivity. Qed.

End AcquisitionsSpec.

(** ** Part VI: properties of [train.py] *)

Module TrainSpec.
Import Train TrainAux Examples.

(** **** Checkpoint names *)

Lemma string_app_cons (c : ascii) (a b : string) :
  String c a ++ b = String c (a ++ b).
Proof. reflexivity. Qed.

Lemma string_app_assoc (a b c : string) : (a ++ b) ++ c = a ++ (b ++ c).
Proof.
  induction a as [|x a IH]; [reflexivity|].
  rewrite !string_app_cons. by rewrite IH.
Qed.

Lemma strip_prefix_app (p s : string) : strip_prefix p (p ++ s) = Some s.
Proof.
  induction p as [|a p IH].
  - change ("" ++ s) with s. by destruct s.
  - rewrite string_app_cons. cbn [strip_prefix].
    by rewrite Ascii.eqb_refl.
Qed.


Lemma string_length_app (a b : string) :
  String.length (a ++ b) = (String.length a + String.length b)%nat.
Proof.
  induction a as [|x a IH]; [reflexivity|].
  rewrite string_app_cons. cbn [String.length]. by rewrite IH.
Qed.

Lemma strip_suffix_app (suf d : string) :
  strip_suffix suf (d ++ suf) = Some d.
Proof.
  induction d as [|c d IH].
  - change ("" ++ suf) with suf.
    destruct suf; cbn [strip_suffix]; by rewrite String.eqb_refl.
  - rewrite string_app_cons. cbn [strip_suffix].
    destruct (String.eqb_spec (String c (d ++ suf)) suf) as [Heq|_].
    + apply (f_equal String.length) in Heq. cbn [String.length] in Heq.
      rewrite string_length_app in Heq. lia.
    + by rewrite IH.
Qed.


Lemma uint_of_string_pad (k : nat) (s : string) :
  NilEmpty.uint_of_string (pad_zeros k s) =
  Nat.iter k Decimal.D0 <$> NilEmpty.uint_of_string s.
Proof.
  induction k as [|k IH]; cbn [pad_zeros Nat.iter nat_rect].
  - by destruct (NilEmpty.uint_of_string s).
  - cbn [NilEmpty.uint_of_string]. rewrite IH.
    by destruct (NilEmpty.uint_of_string s).
Qed.

Lemma of_uint_zeros (k : nat) (d : Decimal.uint) :
  Nat.of_uint (Nat.iter k Decimal.D0 d) = Nat.of_uint d.
Proof. induction k as [|k IH]; [reflexivity|]. exact IH. Qed.

Lemma pad_zeros_cons (k : nat) (s : string) :
  (4 - String.length s <= k)%nat -> exists c r, pad_zeros k s = String c r.
Proof.
  destruct k as [|k]; cbn [pad_zeros].
  - destruct s; cbn [String.length]; [lia|]. eauto.
  - eauto.
Qed.

Lemma parse_digits_format (n : nat) : parse_digits (format_04d n) = Some n.
Proof.
  unfold format_04d, parse_digits.
  set (s := NilEmpty.string_of_uint (Nat.to_uint n)).
  destruct (pad_zeros_cons (4 - String.length s) s) as (c & r & E); [lia|].
  rewrite E, <- E. rewrite uint_of_string_pad. unfold s.
  rewrite NilEmpty.usu. cbn [fmap option_fmap option_map].
  by rewrite of_uint_zeros, Unsigned.of_to.
Qed.

Lemma checkpoint_path_split (name : string) (e : nat) :
  checkpoint_path name e =
  ("./models/.checkpoint_" ++ name ++ "_") ++ (format_04d e ++ ".h5").
Proof. unfold checkpoint_path. by rewrite !string_app_assoc. Qed.

Lemma parse_epoch_checkpoint_path (name : string) (e : nat) :
  parse_epoch name (checkpoint_path name e) = Some e.
Proof.
  unfold parse_epoch. rewrite checkpoint_path_split.
  rewrite strip_prefix_app. cbn [mbind option_bind].
  rewrite strip_suffix_app. cbn [mbind option_bind].
  rewrite parse_digits_format. cbn [mbind option_bind].
  by rewrite String.eqb_refl.
Qed.


Lemma checkpoint_path_inj (name : string) (e1 e2 : nat) :
  checkpoint_path name e1 = checkpoint_path name e2 -> e1 = e2.
Proof.
  intros H. apply (f_equal (parse_epoch name)) in H.
  rewrite !parse_epoch_checkpoint_path in H. congruence.
Qed.

(** **** The order of the losses *)












Section Ranked.

Context {Weights : Type}.

Implicit Types c b : nat * Float * Weights.






Lemma lowest_is_Some (cs : list (nat * Float * Weights)) c :
  c ∈ cs -> is_Some (lowest cs).
Proof.
  destruct cs as [|x cs]; [inversion 1|]. intros _.
  cbn [lowest foldr]. destruct (foldr _ _ cs) as [b|]; [|by eauto].
  destruct (before x b); eauto.
Qed.




End Ranked.


Local Open Scope nat_scope.
Local Open Scope list_scope.

(** **** The loop of [fit] *)

Section Fit.

Context {Input Weights : Type}.
Variable PATIENCE : nat.

Local Abbreviation FitState := (FitState Input Weights).
Local Abbreviation fit_loop := (@fit_loop Input Weights PATIENCE).
Local Abbreviation epoch_step name train val e w l s :=
  (on_epoch_end PATIENCE name e l
     (set_weights w (run_passes train val (EpochTracker_on_epoch_begin e s)))).

Implicit Types s : FitState.

(** The loop of [fit], by cases on how it ends: [J e s] is kept from
    one completed epoch to the next. *)
Lemma fit_loop_cases (J : nat -> FitState -> Prop) name train val oracle :
  (forall e s w l,
      J e s -> stop_training s = false -> oracle e = Completed w l ->
      J (S e) (epoch_step name train val e w l s)) ->
  forall remaining e s exit s',
    J e s -> stop_training s = false ->
    fit_loop name train val oracle remaining e s = (exit, s') ->
    match exit with
    | Exhausted => J (e + remaining) s' /\ stop_training s' = false
    | EarlyStopped K =>
        J (S K) s' /\ stop_training s' = true /\ e <= K < e + remaining
    | Raised K x =>
        exists s0 w,
          J K s0 /\ stop_training s0 = false /\ oracle K = Raises x w /\
          s' = set_weights w (EpochTracker_on_epoch_begin K s0) /\
          e <= K < e + remaining
    end.
Proof.
  intros Hstep.
  induction remaining as [|remaining IH]; intros e s exit s' HJ Hgo Hfit.
  - cbn in Hfit. injection Hfit as <- <-. by rewrite Nat.add_0_r.
  - cbn [Train.fit_loop] in Hfit.
    destruct (oracle e) as [w l|x w] eqn:Ho.
    + specialize (Hstep e s w l HJ Hgo Ho).
      destruct (stop_training (epoch_step name train val e w l s)) eqn:Hstop.
      * injection Hfit as <- <-. split; [exact Hstep|]. split; [exact Hstop|lia].
      * apply IH in Hfit; [|exact Hstep|exact Hstop].
        destruct exit as [|K|K x].
        -- by rewrite Nat.add_succ_r.
        -- destruct Hfit as (? & ? & ?). split; [done|]. split; [done|lia].
        -- destruct Hfit as (s0 & w0 & ? & ? & ? & ? & ?).
           exists s0, w0. repeat split; try done; lia.
    + injection Hfit as <- <-. exists s, w. repeat split; try done; lia.
Qed.

(** The callbacks, field by field. *)
Lemma ModelCheckpoint_fields name e l s :
  let s' := ModelCheckpoint_on_epoch_end name e l s in
  history s' = history s /\
  events (fit_world s') = events (fit_world s) /\
  store (fit_world s') = store (fit_world s) /\
  disk (fit_world s') =
    (if improves l (checkpoint_best s)
     then <[checkpoint_path name (S e) := fit_model s]> (disk (fit_world s))
     else disk (fit_world s)) /\
  checkpoint_best s' =
    (if improves l (checkpoint_best s) then l else checkpoint_best s) /\
  stopping_best s' = stopping_best s /\
  stopping_wait s' = stopping_wait s /\
  stop_training s' = stop_training s /\
  last_epoch s' = last_epoch s /\
  fit_model s' = fit_model s.
Proof.
  unfold ModelCheckpoint_on_epoch_end.
  destruct (improves l (checkpoint_best s)); by repeat split.
Qed.

Lemma EarlyStopping_fields e l s :
  let s' := EarlyStopping_on_epoch_end PATIENCE e l s in
  history s' = history s /\
  fit_world s' = fit_world s /\
  checkpoint_best s' = checkpoint_best s /\
  stopping_best s' =
    (if improves l (stopping_best s) then l else stopping_best s) /\
  stopping_wait s' =
    (if improves l (stopping_best s) then 0 else S (stopping_wait s)) /\
  stop_training s' =
    (if improves l (stopping_best s) then stop_training s
     else if (PATIENCE <=? S (stopping_wait s)) && (0 <? e) then true
          else stop_training s) /\
  last_epoch s' = last_epoch s /\
  fit_model s' = fit_model s.
Proof.
  unfold EarlyStopping_on_epoch_end.
  destruct (improves l (stopping_best s)); by repeat split.
Qed.

(** The state after one completed epoch. *)
Lemma epoch_step_fields name train val e w l s :
  let s' := epoch_step name train val e w l s in
  history s' = history s ++ [l] /\
  events (fit_world s') = events (fit_world s) ++ [WandbLogEpoch e l] /\
  store (fit_world s') = (val (train (store (fit_world s))).2).2 /\
  disk (fit_world s') =
    (if improves l (checkpoint_best s)
     then <[checkpoint_path name (S e) := w]> (disk (fit_world s))
     else disk (fit_world s)) /\
  checkpoint_best s' =
    (if improves l (checkpoint_best s) then l else checkpoint_best s) /\
  stopping_best s' =
    (if improves l (stopping_best s) then l else stopping_best s) /\
  stopping_wait s' =
    (if improves l (stopping_best s) then 0 else S (stopping_wait s)) /\
  stop_training s' =
    (if improves l (stopping_best s) then stop_training s
     else if (PATIENCE <=? S (stopping_wait s)) && (0 <? e) then true
          else stop_training s) /\
  last_epoch s' = e /\
  fit_model s' = w.
Proof.
  intros s'. subst s'. unfold Train.on_epoch_end.
  set (s0 := set_weights w
               (run_passes train val (EpochTracker_on_epoch_begin e s))).
  destruct (ModelCheckpoint_fields name e l s0)
    as (Hh1 & Hev1 & Hst1 & Hd1 & Hb1 & Hsb1 & Hsw1 & Hstop1 & Hle1 & Hfm1).
  set (s1 := ModelCheckpoint_on_epoch_end name e l s0) in *.
  destruct (EarlyStopping_fields e l s1)
    as (Hh2 & Hw2 & Hb2 & Hsb2 & Hsw2 & Hstop2 & Hle2 & Hfm2).
  set (s2 := EarlyStopping_on_epoch_end PATIENCE e l s1) in *.
  cbn zeta in *. unfold record_epoch.
  cbn [history fit_world events store disk checkpoint_best stopping_best
       stopping_wait stop_training last_epoch fit_model].
  rewrite Hh2, Hw2, Hb2, Hsb2, Hsw2, Hstop2, Hle2, Hfm2.
  rewrite Hh1, Hev1, Hst1, Hd1, Hb1, Hsb1, Hsw1, Hstop1, Hle1, Hfm1.
  by repeat split.
Qed.

End Fit.

Lemma epoch_logs_snoc h l :
  epoch_logs (h ++ [l]) = epoch_logs h ++ [WandbLogEpoch (length h) l].
Proof.
  unfold epoch_logs. rewrite imap_app. cbn. by rewrite Nat.add_0_r.
Qed.

Lemma epoch_logs_quiet h : Forall quiet (epoch_logs h).
Proof.
  induction h as [|l h IH] using rev_ind; [constructor|].
  rewrite epoch_logs_snoc. apply Forall_app. split; [exact IH|].
  by repeat constructor.
Qed.

Section FitRun.

Context {Input Weights : Type}.
Variable EPOCHS PATIENCE : nat.

Local Abbreviation fit := (@fit Input Weights EPOCHS PATIENCE).

(** The events, the store and the history of [fit], and the way it
    ended. *)
Lemma fit_history mr train val oracle (w : World Input Weights) exit s :
  fit mr train val oracle w = (exit, s) ->
  events (fit_world s) = events w ++ epoch_logs (history s) /\
  store (fit_world s) =
    Nat.iter (length (history s)) (fun st => (val (train st).2).2) (store w) /\
  (forall i l, history s !! i = Some l -> exists wt, oracle i = Completed wt l) /\
  exit_spec oracle 0 EPOCHS exit s.
Proof.
  intros Hfit. unfold Train.fit in Hfit.
  pose (J := fun (e : nat) (s : FitState Input Weights) =>
    length (history s) = e /\
    (e = 0 \/ last_epoch s = pred e) /\
    events (fit_world s) = events w ++ epoch_logs (history s) /\
    store (fit_world s) =
      Nat.iter e (fun st => (val (train st).2).2) (store w) /\
    (forall i l, history s !! i = Some l -> exists wt, oracle i = Completed wt l)).
  apply (fit_loop_cases PATIENCE J) in Hfit.
  - destruct exit as [|K|K x]; cbn [exit_spec].
    + destruct Hfit as [(Hl & _ & Hev & Hst & Ho) _]. rewrite Hl. by repeat split.
    + destruct Hfit as ((Hl & Hlast & Hev & Hst & Ho) & _ & Hr). rewrite Hl.
      destruct Hlast as [|Hlast]; [done|]. repeat split; try done; lia.
    + destruct Hfit as (s0 & wt & (Hl & _ & Hev & Hst & Ho) & _ & Hor & -> & Hr).
      cbn. rewrite Hl. repeat split; try done; first [lia|by exists wt].
  - intros e s0 wt l (Hl & _ & Hev & Hst & Ho) _ Hor.
    destruct (epoch_step_fields PATIENCE (run_name mr) train val e wt l s0)
      as (Hh & Hev' & Hst' & _ & _ & _ & _ & _ & Hlast & _).
    cbn zeta in *. unfold J.
    rewrite Hh, Hev', Hst', Hev, Hst, epoch_logs_snoc, Hl, Hlast.
    rewrite length_app. cbn [length]. repeat split.
    + lia.
    + by right.
    + by rewrite <- app_assoc.
    + intros i l' Hi. apply lookup_app_Some in Hi as [Hi|[Hge Hi]].
      * by apply Ho.
      * rewrite Hl in Hge, Hi. destruct (i - e) as [|n] eqn:Hn; [|by destruct n].
        cbn in Hi. injection Hi as <-. assert (i = e) as -> by lia.
        by exists wt.
  - unfold J. cbn. split; [reflexivity|]. split; [by left|].
    by rewrite app_nil_r.
  - reflexivity.
Qed.

Lemma fit_exit mr train val oracle (w : World Input Weights) exit s :
  fit mr train val oracle w = (exit, s) ->
  exit_spec oracle 0 EPOCHS exit s /\
  exists logs, events (fit_world s) = events w ++ logs /\ Forall quiet logs.
Proof.
  intros Hfit. destruct (fit_history _ _ _ _ _ _ _ Hfit) as (Hev & _ & _ & Hx).
  split; [exact Hx|]. exists (epoch_logs (history s)).
  split; [exact Hev|apply epoch_logs_quiet].
Qed.


End FitRun.

(** **** [train_model] *)

Section TrainModel.

Context {Input Weights : Type}.
Variable EPOCHS PATIENCE : nat.

Local Abbreviation fit := (@fit Input Weights EPOCHS PATIENCE).
Local Abbreviation train_model := (@train_model Input Weights EPOCHS PATIENCE).

Lemma train_model_cases mr train val oracle (w : World Input Weights) exit s :
  fit mr train val oracle w = (exit, s) ->
  train_model oracle mr train val w =
    match exit with
    | Raised _ KeyboardInterrupt =>
        restored mr s true
          (log_events (fit_world s)
             [Print "Training stopped manually. Evaluating model..."])
    | Raised _ e => (Raise e, fit_world s)
    | Exhausted | EarlyStopped _ => restored mr s false (fit_world s)
    end.
Proof.
  intros Hfit. unfold Train.train_model. rewrite Hfit.
  unfold restored, mbind, M_bind, mret, M_ret, emit, raise, load_best_checkpoint,
    log_events.
  cbn [disk events store run_name val_losses fitted].
  destruct exit as [| |K []]; cbn;
    try (destruct (lowest _) as [[[eb lb] wt]|]); reflexivity.
Qed.

(** The restore returns, and leaves the world as it is. *)
Lemma restored_frame mr (s : FitState Input Weights) flag w1 :
  exists tr,
    restored mr s flag w1 = (Ok tr, w1) /\
    interrupted tr = flag /\ stopped_epoch tr = last_epoch s /\
    metrics_names (model_run tr) = metrics_names mr.
Proof.
  unfold restored. destruct (lowest _) as [[[eb lb] wt]|]; eexists; by repeat split.
Qed.

(** [train_model] never lets a [KeyboardInterrupt] through, and what
    it adds to the events is quiet. *)
Lemma train_model_frame mr train val oracle (w : World Input Weights) r w' :
  train_model oracle mr train val w = (r, w') ->
  r <> Raise KeyboardInterrupt /\
  exists logs, events w' = events w ++ logs /\ Forall quiet logs.
Proof.
  destruct (fit mr train val oracle w) as [exit s] eqn:Hfit.
  rewrite (train_model_cases _ _ _ _ _ _ _ Hfit).
  destruct (fit_exit _ _ _ _ _ _ _ _ _ Hfit) as (_ & logs & Hev & Hq).
  assert (Hres : forall flag w1 logs1,
            events w1 = events w ++ logs1 -> Forall quiet logs1 ->
            restored mr s flag w1 = (r, w') ->
            r <> Raise KeyboardInterrupt /\
            exists logs, events w' = events w ++ logs /\ Forall quiet logs).
  { intros flag w1 logs1 Hev1 Hq1.
    destruct (restored_frame mr s flag w1) as (tr & -> & _).
    intros [= <- <-]. split; [discriminate|]. by exists logs1. }
  destruct exit as [| |K e].
  - by apply (Hres false _ logs).
  - by apply (Hres false _ logs).
  - destruct e; try (intros [= <- <-]; split; [discriminate|by exists logs]).
    apply (Hres true _ (logs ++ [Print "Training stopped manually. Evaluating model..."])).
    + cbn [log_events events]. by rewrite Hev, <- app_assoc.
    + apply Forall_app. split; [exact Hq|]. by repeat constructor.
Qed.



End TrainModel.

Lemma prefix_app (p s : string) : String.prefix p (p ++ s)%string = true.
Proof.
  induction p as [|a p IH].
  - change ("" ++ s)%string with s. by destruct s.
  - rewrite string_app_cons. cbn [String.prefix].
    by destruct (Ascii.ascii_dec a a).
Qed.

(** **** The validation pipeline *)

Section Pipelines.

Context {Input : Type}.

Implicit Types (st : Store Input).

Lemma cache_replays slot (ds : Dataset Input (Sample Input)) st :
  cache slot ds (cache slot ds st).2 = cache slot ds st.
Proof.
  unfold cache at 2 3. destruct (caches st !! slot) as [l|] eqn:Hc.
  - cbn [snd]. unfold cache. by rewrite Hc.
  - destruct (ds st) as [l st'] eqn:Hds. cbn [snd].
    unfold cache. cbn [caches]. by rewrite lookup_insert_eq.
Qed.

Lemma batch_replays n drop (ds : Dataset Input (Sample Input)) st :
  ds (ds st).2 = ds st ->
  batch n drop ds (batch n drop ds st).2 = batch n drop ds st.
Proof.
  intros Hds. unfold batch at 2 3.
  destruct (ds st) as [l st'] eqn:E. cbn [snd] in *.
  unfold batch. by rewrite Hds.
Qed.

Lemma batch_chunks n drop (ds : Dataset Input (Sample Input)) st :
  (batch n drop ds st).1 = map stack (batch_go n drop [] (ds st).1).
Proof. unfold batch. by destruct (ds st). Qed.

(** With [drop_remainder], every batch has exactly [n] elements. *)
Lemma batch_go_full n (cur l : list (Sample Input)) :
  (length cur < n)%nat ->
  Forall (fun c => length c = n) (batch_go n true cur l).
Proof.
  revert cur. induction l as [|x l IH]; intros cur Hcur; cbn [batch_go].
  - destruct cur; constructor.
  - destruct (Nat.eqb_spec (length (x :: cur)) n) as [Heq|Hne].
    + constructor.
      * by rewrite length_reverse.
      * apply IH. cbn. cbn in Heq. lia.
    + apply IH. cbn in *. lia.
Qed.

Lemma concat_predictions {Out : Type} (f : Input -> Out)
    (chunks : list (list (Sample Input))) :
  concat (map (fun b : Batch Input => map f b.1) (map stack chunks)) =
  map (fun s => f s.1) (concat chunks).
Proof.
  induction chunks as [|c chunks IH]; [reflexivity|].
  cbn [map concat stack fst]. rewrite IH, map_app, map_map. reflexivity.
Qed.

Lemma concat_labels (chunks : list (list (Sample Input))) :
  concat (map snd (map stack chunks)) = map snd (concat chunks).
Proof.
  induction chunks as [|c chunks IH]; [reflexivity|].
  cbn [map concat stack snd]. by rewrite IH, map_app.
Qed.

End Pipelines.

Lemma length_concat_uniform {A : Type} (px : nat) (l : list (list A)) :
  Forall (fun a => length a = px) l ->
  length (concat l) = (length l * px)%nat.
Proof.
  induction 1 as [|a l Ha _ IH]; [reflexivity|].
  cbn [concat length]. rewrite length_app, IH, Ha. lia.
Qed.

(** **** The score of an exact prediction *)

Section Score.

Variable ar : Arith.

Lemma r2_score_raises y_true y_pred e :
  r2_score ar y_true y_pred = Raise e -> e = ValueError.
Proof.
  unfold r2_score.
  repeat match goal with
         | |- context [if ?b then _ else _] => destruct b
         end; by intros [= <-].
Qed.





End Score.



(** **** Evaluation *)

Section Evaluate.

Context {Input Weights : Type}.
Variable ar : Arith.
Variable predict_step : Weights -> Input -> Label.
Variable evaluate_metrics : Weights -> list (Batch Input) -> list Float.

Local Abbreviation evaluation_arrays :=
  (@evaluation_arrays Input Weights predict_step evaluate_metrics).
Local Abbreviation evaluate_model :=
  (@evaluate_model Input Weights ar predict_step evaluate_metrics).

Implicit Types (w : World Input Weights) (val : Dataset Input (Batch Input)).
Implicit Types (tr : TrainingResult Weights).

(** [evaluation_arrays] makes three passes over the validation data:
    one to predict, one to collect the labels, one to evaluate. *)
Lemma evaluation_arrays_eq tr val w :
  let p1 := val (store w) in
  let p2 := val p1.2 in
  let p3 := val p2.2 in
  evaluation_arrays tr val w =
    match p1.1, p2.1, p3.1 with
    | [], _, _ => (Raise ValueError, set_store w p1.2)
    | _ :: _, [], _ => (Raise ValueError, set_store w p2.2)
    | _ :: _, _ :: _, [] => (Raise ValueError, set_store w p3.2)
    | _ :: _, _ :: _, _ :: _ =>
        (Ok (concat (map (fun b => map (predict_step (model (model_run tr))) b.1) p1.1),
             concat (map snd p2.1),
             evaluate_metrics (model (model_run tr)) p3.1),
         set_store w p3.2)
    end.
Proof.
  unfold Train.evaluation_arrays, predict, evaluate, iterate, of_result,
    np_concatenate, raise, mbind, M_bind, mret, M_ret, set_store.
  cbn zeta. cbn [store disk events].
  destruct (val (store w)) as [[|b1 bs1] st1]; cbn [fst snd store disk events];
    [reflexivity|].
  destruct (val st1) as [[|b2 bs2] st2]; cbn [fst snd map store disk events];
    [reflexivity|].
  destruct (val st2) as [[|b3 bs3] st3]; cbn [fst snd store disk events];
    reflexivity.
Qed.

Lemma evaluate_model_eq tr val w :
  evaluate_model tr val w =
    match evaluation_arrays tr val w with
    | (Raise e, w1) => (Raise e, w1)
    | (Ok (y_pred, y_true, metric_vals), w1) =>
        match r2_score ar (ravel y_true) (ravel y_pred) with
        | Raise e => (Raise e, w1)
        | Ok r2 =>
            (Ok (kmap (String.append "final/") (metrics_dict tr r2 metric_vals)),
             log_events (log_events w1 [WandbLogImage "scatter"])
               [WandbLogImage "hist"])
        end
    end.
Proof.
  unfold Train.evaluate_model, mbind, M_bind.
  destruct (Train.evaluation_arrays _ _ tr val w) as [[[[yp yt] mv]|e] w1];
    [|reflexivity].
  unfold of_result. destruct (r2_score ar (ravel yt) (ravel yp)); reflexivity.
Qed.

(** What [evaluate_model] adds to the events: nothing when it raises
    (and then a [ValueError]), the two plots when it returns; the
    keys of the summary it returns all carry the prefix. *)
Lemma evaluate_model_frame tr val w r w' :
  evaluate_model tr val w = (r, w') ->
  match r with
  | Raise e => e = ValueError /\ events w' = events w
  | Ok summary =>
      events w' =
        (events w ++ [WandbLogImage "scatter"; WandbLogImage "hist"])%list /\
      forall k, is_Some (summary !! k) -> String.prefix "final/" k = true
  end.
Proof.
  rewrite evaluate_model_eq, evaluation_arrays_eq. cbn zeta.
  destruct (val (store w)) as [[|b1 bs1] st1]; cbn [fst snd].
  { intros [= <- <-]. by split. }
  destruct (val st1) as [[|b2 bs2] st2]; cbn [fst snd].
  { intros [= <- <-]. by split. }
  destruct (val st2) as [[|b3 bs3] st3]; cbn [fst snd].
  { intros [= <- <-]. by split. }
  destruct (r2_score _ _) as [r2|e] eqn:Hr2; intros [= <- <-].
  - split; [cbn [events log_events]; rewrite <- app_assoc; reflexivity|].
    intros k Hk. apply lookup_kmap_is_Some in Hk; [|apply String.app_inj].
    destruct Hk as (i & -> & _). apply prefix_app.
  - split; [by apply r2_score_raises in Hr2|reflexivity].
Qed.

(** C8. With a validation pipeline of 4 batches of 8, the true labels
    that [evaluate_model] concatenates are exactly 32; and when the
    number of concatenated true labels differs from the number of
    predictions (both arrays of one shape per sample), the evaluation
    raises a [ValueError] and nothing is truncated. *)
Theorem evaluation_counts_samples tr val w :
  ((forall st, length (val st).1 = 4%nat /\
               Forall (fun b : Batch Input => length b.2 = 8%nat) (val st).1) ->
   exists y_pred y_true metric_vals w',
     evaluation_arrays tr val w = (Ok (y_pred, y_true, metric_vals), w') /\
     length y_true = 32%nat) /\
  (forall y_pred y_true metric_vals w1 px,
     evaluation_arrays tr val w = (Ok (y_pred, y_true, metric_vals), w1) ->
     Forall (fun a => length a = px) y_true ->
     Forall (fun a => length a = px) y_pred ->
     length y_true <> length y_pred ->
     evaluate_model tr val w = (Raise ValueError, w1)).
Proof.
  split.
  - intros Hval. rewrite evaluation_arrays_eq. cbn zeta.
    destruct (Hval (store w)) as [H1 _].
    destruct (val (store w)) as [[|b1 bs1] st1]; [discriminate|]. cbn [fst snd].
    destruct (Hval st1) as [H2 H2'].
    destruct (val st1) as [[|b2 bs2] st2]; [discriminate|]. cbn [fst snd] in *.
    destruct (Hval st2) as [H3 _].
    destruct (val st2) as [[|b3 bs3] st3]; [discriminate|]. cbn [fst snd].
    do 4 eexists. split; [reflexivity|].
    rewrite (length_concat_uniform 8).
    + rewrite length_map. exact (f_equal (fun n => (n * 8)%nat) H2).
    + apply Forall_fmap. exact H2'.
  - intros y_pred y_true mv w1 px Harr Htrue Hpred Hne.
    rewrite evaluate_model_eq, Harr. unfold ravel, r2_score.
    rewrite (length_concat_uniform px _ Htrue), (length_concat_uniform px _ Hpred).
    match goal with
    | |- context [Nat.eqb ?a ?b] => destruct (Nat.eqb_spec a b) as [Heq|_]
    end; [|reflexivity].
    cbn [negb].
    match goal with
    | |- context [Nat.eqb ?a 0] => destruct (Nat.eqb_spec a 0) as [_|Hnz]
    end; [by rewrite orb_true_r|].
    exfalso. apply Hne.
    assert (Hpx : px <> 0%nat) by (intros ->; apply Hnz, Nat.mul_0_r).
    by apply (Nat.mul_cancel_r _ _ px).
Qed.

End Evaluate.

(** **** The command *)

Section Train.

Context {Input Weights : Type}.
Variable BATCH_SIZE EPOCHS PATIENCE : nat.
Variable load_train load_val : nat -> list (Sample Input).
Variable shuffle_order : nat -> nat -> list (Sample Input) -> list (Sample Input).
Variable ar : Arith.
Variable initial_weights : Weights.
Variable predict_step : Weights -> Input -> Label.
Variable evaluate_metrics : Weights -> list (Batch Input) -> list Float.
Variable new_run_name : string.

Local Abbreviation train :=
  (@train Input Weights ar BATCH_SIZE EPOCHS PATIENCE load_train load_val
     shuffle_order initial_weights predict_step evaluate_metrics new_run_name).
Local Abbreviation train_ds :=
  (load_data shuffle_order BATCH_SIZE load_train load_val).1.
Local Abbreviation val_ds :=
  (load_data shuffle_order BATCH_SIZE load_train load_val).2.
Local Abbreviation new_run := (load_model_run initial_weights new_run_name).
Local Abbreviation fit := (@fit Input Weights EPOCHS PATIENCE).
Local Abbreviation train_model := (@train_model Input Weights EPOCHS PATIENCE).
Local Abbreviation evaluate_model :=
  (@evaluate_model Input Weights ar predict_step evaluate_metrics).

Local Abbreviation val_samples := (TrainAux.val_samples BATCH_SIZE load_val).

Implicit Types (w : World Input Weights).

Lemma train_eq allow_dup allow_cpu gpu oracle w :
  train allow_dup allow_cpu gpu oracle w =
    if negb allow_cpu && negb gpu then (Raise AssertionError, w)
    else
      match train_model oracle new_run train_ds val_ds (started allow_dup w) with
      | (Raise e, w2) => (Raise e, w2)
      | (Ok tr, w2) =>
          match evaluate_model tr val_ds (log_events w2 [WandbLogModel]) with
          | (Raise e, w3) => (Raise e, w3)
          | (Ok summary, w3) =>
              let published :=
                <["interrupted" := VBool (interrupted tr)]> summary in
              let w4 := log_events w3 [WandbSummaryUpdate published] in
              if interrupted tr then (Ok tt, log_events w4 [WandbFinish])
              else
                match published !! "final/r2_score", published !! "final/mae" with
                | Some r2, Some mae =>
                    (Ok tt,
                     log_events
                       (log_events w4 [WandbAlert "Run Complete" r2 mae])
                       [WandbFinish])
                | _, _ => (Raise KeyError, w4)
                end
          end
      end.
Proof.
  unfold Train.train, started.
  destruct allow_cpu, gpu; cbn [negb andb];
    unfold mbind, M_bind, mret, M_ret, raise, emit; try reflexivity;
    cbn [load_data fst snd];
    (destruct (train_model _ _ _ _ _) as [[tr|e] w2]; [|reflexivity]);
    (destruct (evaluate_model _ _ _) as [[summary|e] w3]; [|reflexivity]);
    (destruct (interrupted tr); [reflexivity|]);
    cbn [negb];
    (destruct (_ !! "final/r2_score") as [r2|]; [|reflexivity]);
    (destruct (_ !! "final/mae") as [mae|]; reflexivity).
Qed.

Lemma train_trace (P : Event -> Prop) allow_dup allow_cpu gpu oracle w r w' :
  (forall ev, quiet ev -> P ev) ->
  P (WandbInit allow_dup) -> P WandbLogCode -> P WandbLogModel ->
  P (WandbLogImage "scatter") -> P (WandbLogImage "hist") -> P WandbFinish ->
  (forall tr w2 summary w3,
      train_model oracle new_run train_ds val_ds (started allow_dup w) = (Ok tr, w2) ->
      evaluate_model tr val_ds (log_events w2 [WandbLogModel]) = (Ok summary, w3) ->
      P (WandbSummaryUpdate (<["interrupted" := VBool (interrupted tr)]> summary)) /\
      (interrupted tr = false ->
       forall r2 mae, P (WandbAlert "Run Complete" r2 mae))) ->
  train allow_dup allow_cpu gpu oracle w = (r, w') ->
  exists logs, events w' = (events w ++ logs)%list /\ Forall P logs.
Proof.
  intros Hquiet Hinit Hcode Hmodel Hscatter Hhist Hfinish Hpub.
  rewrite train_eq.
  destruct (negb allow_cpu && negb gpu).
  { intros [= <- <-]. exists []. by rewrite app_nil_r. }
  destruct (train_model _ _ _ _ _) as [rt w2] eqn:Htm.
  destruct (train_model_frame _ _ _ _ _ _ _ _ _ Htm) as (_ & logs & Hev2 & Hq).
  assert (HP : Forall P logs).
  { eapply Forall_impl; [exact Hq|exact Hquiet]. }
  cbn [started log_events events] in Hev2.
  destruct rt as [tr|e].
  2:{ intros [= <- <-]. rewrite Hev2, <- !app_assoc.
      eexists. split; [reflexivity|]. cbn [app].
      repeat (apply Forall_cons; split; [assumption|]). exact HP. }
  destruct (evaluate_model _ _ _) as [re w3] eqn:Hem.
  assert (Hfr := evaluate_model_frame _ _ _ _ _ _ _ _ Hem).
  destruct re as [summary|e].
  2:{ destruct Hfr as [_ Hev3]. intros [= <- <-].
      rewrite Hev3. cbn [log_events events]. rewrite Hev2, <- !app_assoc.
      eexists. split; [reflexivity|]. cbn [app].
      repeat (apply Forall_cons; split; [assumption|]).
      apply Forall_app. split; [exact HP|]. by repeat constructor. }
  destruct Hfr as [Hev3 _]. cbn [log_events events] in Hev3.
  destruct (Hpub tr w2 summary w3 eq_refl Hem) as [Hsum Halert].
  cbn zeta.
  destruct (interrupted tr).
  { intros [= <- <-]. cbn [log_events events].
    rewrite Hev3, Hev2, <- !app_assoc.
    eexists. split; [reflexivity|]. cbn [app].
    repeat (apply Forall_cons; split; [assumption|]).
    apply Forall_app. split; [exact HP|]. by repeat constructor. }
  specialize (Halert eq_refl).
  destruct (_ !! "final/r2_score") as [r2|];
    [destruct (_ !! "final/mae") as [mae|]|];
    intros [= <- <-]; cbn [log_events events];
    rewrite Hev3, Hev2, <- !app_assoc;
    (eexists; split; [reflexivity|]); cbn [app];
    repeat (apply Forall_cons; split; [assumption|]);
    (apply Forall_app; split; [exact HP|]); by repeat constructor.
Qed.

(** C6. Every summary that [train] publishes to the tracking service
    consists of the metrics of [evaluate_model], whose keys all carry
    the prefix [final/], and of the flag [interrupted] that [train]
    adds to them. *)
Theorem published_metric_keys_are_final
    allow_dup allow_cpu gpu oracle w r w' published :
  train allow_dup allow_cpu gpu oracle w = (r, w') ->
  WandbSummaryUpdate published ∈ events w' ->
  WandbSummaryUpdate published ∉ events w ->
  exists (metrics : gmap string Value) (flag : bool),
    published = <["interrupted" := VBool flag]> metrics /\
    (forall k, is_Some (metrics !! k) -> String.prefix "final/" k = true) /\
    (forall k, is_Some (published !! k) ->
               k = "interrupted" \/ String.prefix "final/" k = true).
Proof.
  intros Htrain Hin Hnew.
  destruct (train_trace summary_ok allow_dup allow_cpu gpu oracle w r w')
    as (logs & Hev & Hok);
    [by intros []|exact I|exact I|exact I|exact I|exact I|exact I|
     |exact Htrain|].
  - intros tr w2 summary w3 _ Hem. split; [|intros; exact I].
    exists summary, (interrupted tr). split; [reflexivity|].
    by destruct (evaluate_model_frame _ _ _ _ _ _ _ _ Hem) as [_ Hkeys].
  - rewrite Hev in Hin. apply elem_of_app in Hin as [Hin|Hin]; [done|].
    rewrite Forall_forall in Hok. specialize (Hok _ Hin).
    destruct Hok as (metrics & flag & -> & Hkeys).
    exists metrics, flag. split; [reflexivity|]. split; [exact Hkeys|].
    intros k Hk. destruct (decide (k = "interrupted")) as [->|Hne]; [by left|].
    right. apply Hkeys. by rewrite lookup_insert_ne in Hk.
Qed.


(** A second pass over the validation data replays the first. *)
Lemma val_replays (st : Store Input) : val_ds (val_ds st).2 = val_ds st.
Proof.
  unfold load_data. cbn [snd]. unfold prefetch.
  apply batch_replays, cache_replays.
Qed.

Lemma val_batches (st : Store Input) :
  (val_ds st).1 =
  map stack (batch_go BATCH_SIZE true [] (cache 1 (from_reader load_val) st).1).
Proof.
  unfold load_data. cbn [snd]. unfold prefetch. apply batch_chunks.
Qed.

Lemma evaluation_arrays_val tr w y_pred y_true metric_vals w' :
  evaluation_arrays predict_step evaluate_metrics tr val_ds w =
    (Ok (y_pred, y_true, metric_vals), w') ->
  y_pred = map (fun s => predict_step (model (model_run tr)) s.1)
             (val_samples (store w)) /\
  y_true = map snd (val_samples (store w)).
Proof.
  rewrite evaluation_arrays_eq. cbn zeta.
  rewrite !val_replays.
  unfold TrainAux.val_samples.
  rewrite <- concat_predictions, <- concat_labels, <- val_batches.
  destruct (val_ds (store w)) as [[|b bs] st1]; [discriminate|].
  cbn [fst snd]. intros [= <- <- _ _]. by split.
Qed.

(** C10. A second pass over the validation pipeline of [load_data]
    yields the batches of the first, in the same order, and leaves
    the store as it was; hence in [evaluate_model] the i-th
    prediction and the i-th concatenated true label come from the
    same validation sample. *)
Theorem validation_passes_agree (st : Store Input) :
  val_ds (val_ds st).2 = val_ds st /\
  forall tr w y_pred y_true metric_vals w',
    evaluation_arrays predict_step evaluate_metrics tr val_ds w =
      (Ok (y_pred, y_true, metric_vals), w') ->
    forall i,
      y_pred !! i =
        (fun s => predict_step (model (model_run tr)) s.1)
          <$> val_samples (store w) !! i /\
      y_true !! i = snd <$> val_samples (store w) !! i.
Proof.
  split; [apply val_replays|].
  intros tr w y_pred y_true mv w' Harr i.
  destruct (evaluation_arrays_val _ _ _ _ _ _ Harr) as [-> ->].
  by rewrite !list_lookup_fmap.
Qed.


End Train.

(** **** Instances *)




Lemma published_metric_keys_are_final_witness :
  train exact 2 10 2 (fun _ => demo_samples) (fun _ => demo_samples)
    demo_shuffle 0%nat demo_predict demo_metrics "run" false true false
    stopped_by_hand empty_world =
    (Ok tt,
     (train exact 2 10 2 (fun _ => demo_samples) (fun _ => demo_samples)
        demo_shuffle 0%nat demo_predict demo_metrics "run" false true false
        stopped_by_hand empty_world).2) /\
  WandbSummaryUpdate demo_published ∈
    events
      (train exact 2 10 2 (fun _ => demo_samples) (fun _ => demo_samples)
         demo_shuffle 0%nat demo_predict demo_metrics "run" false true false
         stopped_by_hand empty_world).2 /\
  (WandbSummaryUpdate demo_published ∉ events empty_world) /\
  exists (metrics : gmap string Value) (flag : bool),
    demo_published = <["interrupted"%string := VBool flag]> metrics /\
    (forall k, is_Some (metrics !! k) -> String.prefix "final/" k = true) /\
    (forall k, is_Some (demo_published !! k) ->
               k = "interrupted"%string \/ String.prefix "final/" k = true).
Proof.
  assert (H1 :
    train exact 2 10 2 (fun _ => demo_samples) (fun _ => demo_samples)
      demo_shuffle 0%nat demo_predict demo_metrics "run" false true false
      stopped_by_hand empty_world =
      (Ok tt,
       (train exact 2 10 2 (fun _ => demo_samples) (fun _ => demo_samples)
          demo_shuffle 0%nat demo_predict demo_metrics "run" false true false
          stopped_by_hand empty_world).2)).
  { vm_compute. reflexivity. }
  assert (H2 :
    WandbSummaryUpdate demo_published ∈
      events
        (train exact 2 10 2 (fun _ => demo_samples) (fun _ => demo_samples)
           demo_shuffle 0%nat demo_predict demo_metrics "run" false true false
           stopped_by_hand empty_world).2).
  { apply (list_elem_of_lookup_2 _ 9). vm_compute. reflexivity. }
  assert (H3 : WandbSummaryUpdate demo_published ∉ events empty_world).
  { apply not_elem_of_nil. }
  split; [exact H1|]. split; [exact H2|]. split; [exact H3|].
  exact (published_metric_keys_are_final 2 10 2
           (fun _ => demo_samples) (fun _ => demo_samples) demo_shuffle exact
           0%nat demo_predict demo_metrics "run" false true false
           stopped_by_hand empty_world _ _ demo_published H1 H2 H3).
Defined.

Lemma evaluation_counts_samples_witness :
  (forall st, length (four_by_eight st).1 = 4%nat /\
              Forall (fun b : Batch nat => length b.2 = 8%nat)
                (four_by_eight st).1) /\
  (exists y_pred y_true metric_vals w',
      evaluation_arrays demo_predict demo_metrics demo_result four_by_eight
        empty_world = (Ok (y_pred, y_true, metric_vals), w') /\
      length y_true = 32%nat) /\
  (exists y_pred y_true metric_vals w1,
      evaluation_arrays demo_predict demo_metrics demo_result shrinking_val
        empty_world = (Ok (y_pred, y_true, metric_vals), w1) /\
      Forall (fun a => length a = 1%nat) y_true /\
      Forall (fun a => length a = 1%nat) y_pred /\
      length y_true <> length y_pred /\
      evaluate_model exact demo_predict demo_metrics demo_result shrinking_val
        empty_world = (Raise ValueError, w1)).
Proof.
  assert (H1 : forall st : Store nat,
             length (four_by_eight st).1 = 4%nat /\
             Forall (fun b : Batch nat => length b.2 = 8%nat)
               (four_by_eight st).1).
  { intros st. split; [reflexivity|]. cbn. by repeat constructor. }
  split; [exact H1|]. split.
  - exact (proj1 (evaluation_counts_samples exact demo_predict demo_metrics
                    demo_result four_by_eight empty_world) H1).
  - do 4 eexists.
    assert (H2 : evaluation_arrays demo_predict demo_metrics demo_result
                   shrinking_val empty_world =
                 (Ok ([[Finite 1]; [Finite 2]], [[Finite 1]],
                      [Finite 0; Finite 0; Finite 0]),
                  set_store empty_world {| caches := ∅; passes := 3 |})).
    { vm_compute. reflexivity. }
    assert (H3 : Forall (fun a : list Float => length a = 1%nat) [[Finite 1]])
      by (by repeat constructor).
    assert (H4 : Forall (fun a : list Float => length a = 1%nat)
                   [[Finite 1]; [Finite 2]])
      by (by repeat constructor).
    assert (H5 : length [[Finite 1]] <> length [[Finite 1]; [Finite 2]])
      by (cbn; lia).
    split; [exact H2|]. split; [exact H3|]. split; [exact H4|].
    split; [exact H5|].
    exact (proj2 (evaluation_counts_samples exact demo_predict demo_metrics
                    demo_result shrinking_val empty_world)
             _ _ _ _ 1%nat H2 H3 H4 H5).
Defined.



Lemma validation_passes_agree_witness :
  demo_data.2 (demo_data.2 (store empty_world)).2 =
    demo_data.2 (store empty_world) /\
  exists y_pred y_true metric_vals w',
    evaluation_arrays demo_predict demo_metrics demo_result demo_data.2
      empty_world = (Ok (y_pred, y_true, metric_vals), w') /\
    forall i,
      y_pred !! i =
        (fun s : Sample nat => demo_predict (model (model_run demo_result)) s.1)
          <$> val_samples 2 (fun _ => demo_samples) (store empty_world) !! i /\
      y_true !! i =
        snd <$> val_samples 2 (fun _ => demo_samples) (store empty_world) !! i.
Proof.
  destruct (validation_passes_agree 2 (fun _ => demo_samples)
              (fun _ => demo_samples) demo_shuffle demo_predict demo_metrics
              (store empty_world)) as [H1 H2].
  split; [exact H1|].
  do 4 eexists.
  assert (H3 : evaluation_arrays demo_predict demo_metrics demo_result
                 demo_data.2 empty_world =
               (Ok ([[Finite 1]; [Finite 2]; [Finite 3]; [Finite 4]],
                    [[Finite 1]; [Finite 2]; [Finite 3]; [Finite 4]],
                    [Finite 0; Finite 0; Finite 0]),
                set_store empty_world
                  {| caches := {[ 1%nat := demo_samples ]}; passes := 1 |})).
  { vm_compute. reflexivity. }
  split; [exact H3|]. exact (H2 _ _ _ _ _ _ H3).
Defined.

End TrainSpec.
